(** * flask_wrappers: a shallow embedding of [wrappers.py]

    The module is a handful of decorators around Flask endpoints.  Each
    Python function is embedded as a Rocq function over a small model of the
    Python values it handles; code that can raise returns an [outcome].

    Conventions of the embedding:
    - a [str] is the sequence of its code points, for code points below 256;
    - a [dict] is the list of its items in insertion order;
    - a callable taking [*args, **kwargs] is a function from the positional
      and the keyword arguments to an [outcome];
    - the ambient [flask.request] is an explicit argument. *)

From Stdlib Require Import ZArith NArith Ascii String List Bool Lia.
From stdpp Require Import base tactics option strings pretty list gmap.

Set Warnings "-register-all".
Open Scope string_scope.

(** ** Python values *)

(** A [float] is kept as the text [float.__repr__] prints for it; the three
    non-finite values are apart because [json] prints them differently. *)
Inductive pyfloat :=
  | FNaN
  | FInf
  | FNegInf
  | FFinite (repr : string).

(** [datetime.datetime]: the calendar fields, and the UTC offset in seconds
    of an aware value ([None] for a naive one). *)
Record datetime := mk_datetime {
  dt_year : Z;
  dt_month : Z;
  dt_day : Z;
  dt_hour : Z;
  dt_minute : Z;
  dt_second : Z;
  dt_microsecond : Z;
  dt_utcoffset : option Z
}.

(** Keys of a [dict].  [KOther] stands for any other hashable key (a tuple,
    a [datetime], ...), named by its class. *)
Inductive pykey :=
  | KStr (s : string)
  | KInt (z : Z)
  | KBool (b : bool)
  | KNone
  | KFloat (f : pyfloat)
  | KOther (cls : string).

(** The values endpoints receive and return.  [PResponse] is
    [flask.Response] with the three fields [json_response] sets; [PObject]
    stands for an object of any other class that is no subclass of the
    classes here, named by its class (a [set], a [datetime.date], [bytes],
    ...). *)
Inductive pyval :=
  | PNone
  | PBool (b : bool)
  | PInt (z : Z)
  | PFloat (f : pyfloat)
  | PStr (s : string)
  | PList (l : list pyval)
  | PTuple (l : list pyval)
  | PDict (d : list (pykey * pyval))
  | PDatetime (d : datetime)
  | PResponse (response : string) (status : pyval) (mimetype : string)
  | PObject (cls : string).

(** [type(v)]: the exact class of a value. *)
Inductive pytype :=
  | TNoneType
  | TBool
  | TInt
  | TFloat
  | TStr
  | TList
  | TTuple
  | TDict
  | TDatetime
  | TResponse
  | TOther (cls : string).

Definition type_of (v : pyval) : pytype :=
  match v with
  | PNone => TNoneType
  | PBool _ => TBool
  | PInt _ => TInt
  | PFloat _ => TFloat
  | PStr _ => TStr
  | PList _ => TList
  | PTuple _ => TTuple
  | PDict _ => TDict
  | PDatetime _ => TDatetime
  | PResponse _ _ _ => TResponse
  | PObject cls => TOther cls
  end.

(** [type(v).__name__] *)
Definition type_name (t : pytype) : string :=
  match t with
  | TNoneType => "NoneType"
  | TBool => "bool"
  | TInt => "int"
  | TFloat => "float"
  | TStr => "str"
  | TList => "list"
  | TTuple => "tuple"
  | TDict => "dict"
  | TDatetime => "datetime"
  | TResponse => "Response"
  | TOther cls => cls
  end.

#[global] Instance pyfloat_eq_dec : EqDecision pyfloat.
Proof. solve_decision. Defined.
#[global] Instance pykey_eq_dec : EqDecision pykey.
Proof. solve_decision. Defined.
#[global] Instance pytype_eq_dec : EqDecision pytype.
Proof. solve_decision. Defined.

(** ** Exceptions and outcomes *)

(** An exception: the class name as a traceback prints it, and [str(e)]. *)
Record exn := mk_exn {
  exc_class : string;
  exc_msg : string
}.

#[global] Instance exn_eq_dec : EqDecision exn.
Proof. solve_decision. Defined.

Inductive outcome (A : Type) :=
  | Return (a : A)
  | Raise (e : exn).
Arguments Return {A} a.
Arguments Raise {A} e.

#[global] Instance outcome_ret : MRet outcome := @Return.
#[global] Instance outcome_bind : MBind outcome := λ A B f m,
  match m with
  | Return a => f a
  | Raise e => Raise e
  end.

(** A loop that collects the results of its turns, until one raises. *)
Section outcome_mapM.
Context {A B : Type} (f : A → outcome B).

Fixpoint outcome_mapM (l : list A) : outcome (list B) :=
  match l with
  | [] => Return []
  | x :: l' => y ← f x; ys ← outcome_mapM l'; Return (y :: ys)
  end.
End outcome_mapM.

Definition AssertionError {A} (msg : string) : outcome A :=
  Raise (mk_exn "AssertionError" msg).
Definition TypeError {A} (msg : string) : outcome A :=
  Raise (mk_exn "TypeError" msg).
Definition ValueError {A} (msg : string) : outcome A :=
  Raise (mk_exn "ValueError" msg).

(** A callable, invoked with positional and keyword arguments. *)
Definition kwargs := list (string * pyval).
Definition callable := list pyval → kwargs → outcome pyval.

(** ** Dictionaries *)

Section dict.
Context {K V : Type} `{EqDecision K}.

(** [d.get(k)] *)
Fixpoint dict_get (k : K) (d : list (K * V)) : option V :=
  match d with
  | [] => None
  | (k', v) :: d' => if decide (k' = k) then Some v else dict_get k d'
  end.

(** [d[k] = v]: an existing key keeps its place, a new one goes last. *)
Fixpoint dict_set (k : K) (v : V) (d : list (K * V)) : list (K * V) :=
  match d with
  | [] => [(k, v)]
  | (k', v') :: d' =>
      if decide (k' = k) then (k, v) :: d' else (k', v') :: dict_set k v d'
  end.

(** [d.keys()] *)
Definition dict_keys (d : list (K * V)) : list K := d.*1.
End dict.

(** ** Strings *)

(** [c in s] for a one-character [c] *)
Fixpoint str_contains (c : ascii) (s : string) : bool :=
  match s with
  | "" => false
  | String c' s' => if decide (c' = c) then true else str_contains c s'
  end.

(** [s in t] for strings *)
Definition is_substring (s t : string) : Prop :=
  ∃ before after, t = before ++ s ++ after.

(** [s.count(c)] *)
Fixpoint str_count (c : ascii) (s : string) : nat :=
  match s with
  | "" => 0
  | String c' s' => (if decide (c' = c) then 1 else 0)%nat + str_count c s'
  end.

(** [s.split(c)] for a one-character separator: every occurrence splits. *)
Fixpoint str_split (c : ascii) (s : string) : list string :=
  match s with
  | "" => [""]
  | String c' s' =>
      if decide (c' = c) then "" :: str_split c s'
      else match str_split c s' with
           | [] => [String c' ""]
           | p :: ps => String c' p :: ps
           end
  end.

(** [str.lower] on one code point below 256: the letters A-Z, and the
    Latin-1 capitals U+00C0-U+00DE except the multiplication sign U+00D7. *)
Definition chr_lower (c : ascii) : ascii :=
  let n := N_of_ascii c in
  if ((65 <=? n) && (n <=? 90))%N then ascii_of_N (n + 32)
  else if ((192 <=? n) && (n <=? 222) && negb (n =? 215))%N
       then ascii_of_N (n + 32)
  else c.

(** [s.lower()] *)
Fixpoint str_lower (s : string) : string :=
  match s with
  | "" => ""
  | String c s' => String (chr_lower c) (str_lower s')
  end.

(** [sep.join(l)] *)
Fixpoint str_join (sep : string) (l : list string) : string :=
  match l with
  | [] => ""
  | [s] => s
  | s :: l' => s ++ sep ++ str_join sep l'
  end.

(** [s.isdigit()] for ASCII digits, also true of the empty string here. *)
Definition chr_digit (c : ascii) : bool :=
  let n := N_of_ascii c in ((48 <=? n) && (n <=? 57))%N.

Fixpoint str_digits (s : string) : bool :=
  match s with
  | "" => true
  | String c s' => chr_digit c && str_digits s'
  end.

(** [repr(s)] of a [str], for code points below 256. *)
Definition squote : ascii := "'"%char.
Definition dquote : ascii := "034"%char.
Definition backslash : ascii := "\"%char.
Definition newline : ascii := "010"%char.

Definition hex_digit (n : N) : ascii :=
  match n with
  | 0 => "0" | 1 => "1" | 2 => "2" | 3 => "3" | 4 => "4" | 5 => "5"
  | 6 => "6" | 7 => "7" | 8 => "8" | 9 => "9" | 10 => "a" | 11 => "b"
  | 12 => "c" | 13 => "d" | 14 => "e" | _ => "f"
  end%char%N.

Definition hex2 (c : ascii) : string :=
  let n := N_of_ascii c in
  String (hex_digit (n / 16)) (String (hex_digit (n mod 16)) "").

(** [c.isprintable()]: the controls U+0000-U+001F and U+007F-U+009F, the
    no-break space U+00A0 and the soft hyphen U+00AD are not. *)
Definition chr_printable (c : ascii) : bool :=
  let n := N_of_ascii c in
  (((32 <=? n) && (n <=? 126)) || ((161 <=? n) && negb (n =? 173)))%N.

Definition repr_chr (quote c : ascii) : string :=
  if decide (c = backslash) then String backslash (String backslash "")
  else if decide (c = quote) then String backslash (String quote "")
  else if decide (c = "009"%char) then String backslash "t"
  else if decide (c = newline) then String backslash "n"
  else if decide (c = "013"%char) then String backslash "r"
  else if chr_printable c then String c ""
  else String backslash ("x" ++ hex2 c).

Fixpoint repr_body (quote : ascii) (s : string) : string :=
  match s with
  | "" => ""
  | String c s' => repr_chr quote c ++ repr_body quote s'
  end.

Definition py_repr_str (s : string) : string :=
  let quote :=
    if str_contains squote s && negb (str_contains dquote s)
    then dquote else squote in
  String quote (repr_body quote s ++ String quote "").

(** [repr] of a [list] or [tuple] of strings. *)
Definition py_repr_seq (is_tuple : bool) (l : list string) : string :=
  let items := str_join ", " (py_repr_str <$> l) in
  if is_tuple then
    match l with
    | [_] => "(" ++ items ++ ",)"
    | _ => "(" ++ items ++ ")"
    end
  else "[" ++ items ++ "]".

(** ** Keyword arguments *)

(** Python binds the keywords of a call to the parameters of the callee: a
    keyword named as a parameter that has its positional argument already
    is refused (the text is the one of Python 3.10 and later). *)
Definition multiple_values_error (callee param : string) : exn :=
  mk_exn "TypeError"
    (callee ++ "() got multiple values for argument '" ++ param ++ "'").

Definition multiple_values {A} (callee param : string) : outcome A :=
  Raise (multiple_values_error callee param).

(** The first keyword that names one of [params]. *)
Fixpoint bound_twice (params : list string) (keywords : kwargs)
    : option string :=
  match keywords with
  | [] => None
  | (k, _) :: keywords' =>
      if decide (k ∈ params) then Some k else bound_twice params keywords'
  end.

(** ** [json_request_required]: the required-field validator *)

Module json_request_required.

(** An entry of the local table [__types]: the string ["any"], or a class. *)
Inductive table_value :=
  | TblStr (s : string)
  | TblType (t : pytype).

Definition __types : list (string * table_value) :=
  [ ("any", TblStr "any");
    ("str", TblType TStr);
    ("int", TblType TInt);
    ("float", TblType TFloat);
    ("bool", TblType TBool);
    ("list", TblType TList);
    ("dict", TblType TDict) ].

(** [type(v) is _type] *)
Definition type_is (v : pyval) (_type : table_value) : bool :=
  match _type with
  | TblType t => bool_decide (type_of v = t)
  | TblStr _ => false
  end.

(** Lines 78-83: [_type_name] and [key] of one specifier.  The unpacking
    [_type_name, key = key.split(":")] needs exactly two pieces. *)
Definition parse_specifier (key : string) : outcome (option string * string) :=
  if str_contains ":" key then
    match str_split ":" key with
    | [_type_name; key'] => Return (Some (str_lower _type_name), key')
    | [] => ValueError "not enough values to unpack (expected 2, got 0)"
    | [_] => ValueError "not enough values to unpack (expected 2, got 1)"
    | _ => ValueError "too many values to unpack (expected 2)"
    end
  else Return (None, key).

(** Lines 85-92: the checks on one parsed specifier. *)
Definition check_specifier (obj : list (pykey * pyval))
    (errors : list (string * string))
    (_type_name : option string) (key : string)
    : outcome (list (string * string)) :=
  match dict_get (KStr key) obj with
  | None => Return (dict_set key "missing" errors)
  | Some v =>
      match _type_name with
      | None => Return errors
      | Some _type_name =>
          if decide (_type_name = "any") then Return errors
          else
            match dict_get _type_name __types with
            | None =>
                AssertionError
                  (_type_name ++ " is not a valid type. The valid types are: "
                   ++ str_join " " (dict_keys __types) ++ ".")
            | Some _type =>
                if type_is v _type then Return errors
                else Return
                       (dict_set key ("is not of type " ++ _type_name) errors)
            end
      end
  end.

(** One turn of the loop of [verify_json]. *)
Definition verify_step (obj : list (pykey * pyval))
    (errors : list (string * string)) (key : string)
    : outcome (list (string * string)) :=
  '(_type_name, key') ← parse_specifier key;
  check_specifier obj errors _type_name key'.

Fixpoint verify_loop (obj : list (pykey * pyval))
    (errors : list (string * string)) (required : list string)
    : outcome (list (string * string)) :=
  match required with
  | [] => Return errors
  | key :: required' =>
      errors' ← verify_step obj errors key;
      verify_loop obj errors' required'
  end.

(** [verify_json(obj, required)], for specifiers that are strings (on
    which [str(key)] is the identity). *)
Definition verify_json (obj : list (pykey * pyval)) (required : list string)
    : outcome (list (string * string)) :=
  verify_loop obj [] required.

(** An argument of the constructor: one specifier, or a [list] or [tuple] of
    specifiers. *)
Inductive specifier_arg :=
  | ArgStr (s : string)
  | ArgSeq (is_tuple : bool) (l : list string).

(** [str(key)] on such an argument *)
Definition specifier_str (a : specifier_arg) : string :=
  match a with
  | ArgStr s => s
  | ArgSeq is_tuple l => py_repr_seq is_tuple l
  end.

(** [self.__verify_json(obj)], with [self.required] as [required]. *)
Definition __verify_json (required : list specifier_arg)
    (obj : list (pykey * pyval)) : outcome (list (string * string)) :=
  match required with
  | [] => Return []
  | ArgSeq _ l :: _ => verify_json obj l
  | ArgStr _ :: _ => verify_json obj (specifier_str <$> required)
  end.

End json_request_required.

(** ** [catch]: the exception guard *)

(** What [traceback.format_exc()] prints for an exception [e] that is
    being handled, around the class name of [e].  [tb_before]: all that
    comes before the class name on the line of [e], that is the header, the
    stack entries, the tracebacks of the exceptions [e] follows from, the
    place of a [SyntaxError], the margin of an exception group.
    [tb_shown]: what follows the class name on that line when it is not
    [str(e)] as it is: for a [SyntaxError], a colon and the [msg] of the
    error, where [str(e)] holds the place too; for an exception group, a
    colon and [str(e)] with the margin after each of its line breaks.  It
    is [None] for the other exceptions: the line shows a colon and
    [str(e)], or nothing when [str(e)] is empty.  [tb_after]: all that
    comes after, that is a hint of the interpreter, the end of the line, the
    notes of [e], the members of a group. *)
Record traceback := mk_traceback {
  tb_before : string;
  tb_shown : option string;
  tb_after : string
}.

Section guard.
Variable traceback_of : exn → traceback.

(** The class name of [e] and what follows it on its line. *)
Definition exception_line (e : exn) : string :=
  exc_class e
  ++ match tb_shown (traceback_of e) with
     | Some shown => shown
     | None =>
         match exc_msg e with
         | "" => ""
         | msg => ": " ++ msg
         end
     end.

(** [traceback.format_exc()] while [e] is being handled. *)
Definition format_exc (e : exn) : string :=
  tb_before (traceback_of e) ++ exception_line e
  ++ tb_after (traceback_of e).

(** Lines 17-25.  The bare [except:] handles every exception. *)
Definition catch (func : callable) : callable := λ args kwargs,
  match func args kwargs with
  | Return result => Return result
  | Raise e => Return (PTuple [PStr (format_exc e); PInt 500])
  end.

End guard.

(** ** The request extractors *)

(** What the code reads of [flask.request]. *)
Module request.

(** The code uses [request.json] both ways, as a value and as something to
    call.  [JsonProperty read]: the attribute is a property, as in Flask,
    and reading it gives a value or raises.  [JsonMethod call]: the
    attribute is a method, and calling it gives a value or raises. *)
Inductive json_attribute :=
  | JsonProperty (read : outcome pyval)
  | JsonMethod (call : outcome pyval).

Record t := mk {
  json : json_attribute;
  args : pyval;
  headers : pyval;
  cookies : pyval;
  data : pyval
}.

End request.

(** Calling a value that is not callable. *)
Definition not_callable {A} (v : pyval) : outcome A :=
  TypeError ("'" ++ type_name (type_of v) ++ "' object is not callable").

(** Lines 36-44. *)
Definition json_request (func : callable) (req : request.t) : callable :=
  λ args kwargs,
  body ← match request.json req with
         | request.JsonProperty read =>
             v ← read;
             match v with
             | PDict _ => Return v
             | _ => not_callable v
             end
         | request.JsonMethod call => call
         end;
  match body with
  | PNone => AssertionError "Request body is not application/json"
  | _ => func (body :: args) kwargs
  end.

(** [x if x is not None else {}] *)
Definition or_empty_dict (v : pyval) : pyval :=
  match v with
  | PNone => PDict []
  | _ => v
  end.

(** Lines 120-124, 136-140, 152-156 and 168-172. *)
Definition querystring_request (func : callable) (req : request.t)
    : callable :=
  λ args kwargs, func (or_empty_dict (request.args req) :: args) kwargs.

Definition headers_request (func : callable) (req : request.t) : callable :=
  λ args kwargs, func (or_empty_dict (request.headers req) :: args) kwargs.

Definition cookies_request (func : callable) (req : request.t) : callable :=
  λ args kwargs, func (or_empty_dict (request.cookies req) :: args) kwargs.

Definition body_request (func : callable) (req : request.t) : callable :=
  λ args kwargs, func (or_empty_dict (request.data req) :: args) kwargs.

(** ** JSON encoding *)

(** [datetime.isoformat()]: [YYYY-MM-DDTHH:MM:SS], then the microseconds when
    they are not zero, then the UTC offset of an aware value. *)
Fixpoint zeros (n : nat) : string :=
  match n with
  | O => ""
  | S n' => String "0" (zeros n')
  end.

(** ["%0<width>d" % z] for [0 <= z] *)
Definition zero_pad (width : nat) (z : Z) : string :=
  let digits := pretty z in
  zeros (width - String.length digits) ++ digits.

Definition format_offset (off : option Z) : string :=
  match off with
  | None => ""
  | Some off =>
      let sign := if (off <? 0)%Z then "-" else "+" in
      let off := Z.abs off in
      let hh := (off / 3600)%Z in
      let mm := ((off mod 3600) / 60)%Z in
      let ss := (off mod 60)%Z in
      sign ++ zero_pad 2 hh ++ ":" ++ zero_pad 2 mm
      ++ (if (ss =? 0)%Z then "" else ":" ++ zero_pad 2 ss)
  end.

Definition isoformat (d : datetime) : string :=
  zero_pad 4 (dt_year d) ++ "-" ++ zero_pad 2 (dt_month d) ++ "-"
  ++ zero_pad 2 (dt_day d) ++ "T" ++ zero_pad 2 (dt_hour d) ++ ":"
  ++ zero_pad 2 (dt_minute d) ++ ":" ++ zero_pad 2 (dt_second d)
  ++ (if (dt_microsecond d =? 0)%Z then ""
      else "." ++ zero_pad 6 (dt_microsecond d))
  ++ format_offset (dt_utcoffset d).

(** The standard library's [json] encoder, as [json.dumps] runs it with its
    default options. *)
Module json.

(** [encode_basestring_ascii]: the characters from the space to the tilde
    stay, but for the quote and the backslash; the others are escaped. *)
Definition escape_chr (c : ascii) : string :=
  let n := N_of_ascii c in
  if decide (c = backslash) then String backslash (String backslash "")
  else if decide (c = dquote) then String backslash (String dquote "")
  else if ((32 <=? n) && (n <=? 126))%N then String c ""
  else if decide (c = "008"%char) then String backslash "b"
  else if decide (c = "012"%char) then String backslash "f"
  else if decide (c = newline) then String backslash "n"
  else if decide (c = "013"%char) then String backslash "r"
  else if decide (c = "009"%char) then String backslash "t"
  else String backslash ("u00" ++ hex2 c).

Fixpoint escape (s : string) : string :=
  match s with
  | "" => ""
  | String c s' => escape_chr c ++ escape s'
  end.

Definition encode_basestring_ascii (s : string) : string :=
  String dquote (escape s ++ String dquote "").

(** [floatstr] *)
Definition floatstr (f : pyfloat) : string :=
  match f with
  | FNaN => "NaN"
  | FInf => "Infinity"
  | FNegInf => "-Infinity"
  | FFinite repr => repr
  end.

(** The name of a dictionary's item: a key that is a [str], [float], [bool],
    [None] or [int] is turned into a string, another one is refused. *)
Definition encode_key (k : pykey) : outcome string :=
  match k with
  | KStr s => Return (encode_basestring_ascii s)
  | KFloat f => Return (encode_basestring_ascii (floatstr f))
  | KBool true => Return (encode_basestring_ascii "true")
  | KBool false => Return (encode_basestring_ascii "false")
  | KNone => Return (encode_basestring_ascii "null")
  | KInt z => Return (encode_basestring_ascii (pretty z))
  | KOther cls =>
      TypeError ("keys must be str, int, float, bool or None, not " ++ cls)
  end.

Section iterencode.
(** What the encoder does with an object of no JSON type: it encodes what
    the [default] hook makes of it. *)
Variable encode_other : pyval → outcome string.

Fixpoint iterencode (o : pyval) : outcome string :=
  match o with
  | PNone => Return "null"
  | PBool true => Return "true"
  | PBool false => Return "false"
  | PInt z => Return (pretty z)
  | PFloat f => Return (floatstr f)
  | PStr s => Return (encode_basestring_ascii s)
  | PList l | PTuple l =>
      ss ← outcome_mapM iterencode l;
      Return ("[" ++ str_join ", " ss ++ "]")
  | PDict d =>
      ss ← outcome_mapM
             (λ '(k, v),
                name ← encode_key k;
                s ← iterencode v;
                Return (name ++ ": " ++ s)) d;
      Return ("{" ++ str_join ", " ss ++ "}")
  | PDatetime _ | PResponse _ _ _ | PObject _ => encode_other o
  end.
End iterencode.

(** [JSONEncoder.default]: it raises, whatever the object. *)
Definition JSONEncoder_default {A} (o : pyval) : outcome A :=
  TypeError ("Object of type " ++ type_name (type_of o)
             ++ " is not JSON serializable").

(** [json.dumps(o)] *)
Definition dumps_standard (o : pyval) : outcome string :=
  iterencode JSONEncoder_default o.

(** [json.dumps(o, cls=C)] for an encoder class [C] whose [default] returns
    objects of JSON types, such as the one of this module: the object the
    hook returns is encoded in its place. *)
Definition dumps (default : pyval → outcome pyval) (o : pyval)
    : outcome string :=
  iterencode (λ o, o' ← default o; dumps_standard o') o.

End json.

(** Lines 6-14: [__JSONEncoder.default]. *)
Module __JSONEncoder.

Definition default (obj : pyval) : outcome pyval :=
  match obj with
  | PDatetime d => Return (PStr (isoformat d))
  | _ => json.JSONEncoder_default obj
  end.

End __JSONEncoder.

(** ** [json_response]: the response serializer *)

(** [isinstance(v, (list, tuple))], with the items. *)
Definition as_sequence (v : pyval) : option (list pyval) :=
  match v with
  | PList l | PTuple l => Some l
  | _ => None
  end.

(** [seq[i]] *)
Definition py_index (seq : list pyval) (i : nat) : outcome pyval :=
  match seq !! i with
  | Some v => Return v
  | None => Raise (mk_exn "IndexError" "index out of range")
  end.

Section response.
(** What [Response] makes of a [status] that is neither [None] nor an
    [int] (a string, a [bool], a [dict], ...): the status the response
    keeps, or the exception the constructor raises.  This is the host
    framework's and is left open. *)
Variable other_status : pyval → outcome pyval.

(** [Response(response=.., status=.., mimetype=..)]: without a status the
    response has the status 200; an [int] is the status as it is. *)
Definition Response (response : string) (status : pyval) (mimetype : string)
    : outcome pyval :=
  status ← match status with
           | PNone => Return (PInt 200)
           | PInt _ => Return status
           | _ => other_status status
           end;
  Return (PResponse response status mimetype).

(** Lines 186-197. *)
Definition json_response (func : callable) : callable := λ args kwargs,
  result ← func args kwargs;
  let result :=
    match as_sequence result with
    | None => [result; PInt 200]
    | Some items => items
    end in
  let result :=
    if decide (length result = 0) then [PStr ""; PInt 200]
    else if decide (length result = 1) then
      match result with
      | x :: _ => [x; PInt 200]
      | [] => result
      end
    else result in
  payload ← py_index result 0;
  body ← json.dumps __JSONEncoder.default payload;
  status ← py_index result 1;
  Response body status "application/json".

End response.

(** ** [RouteFactory] *)

Module RouteFactory.

(** The keyword options of a verb method, once bound: [methods], when
    given, is a list of verb names; the others are handed to the router as
    they are. *)
Record route_options := mk_options {
  opt_methods : option (list string);
  opt_others : kwargs
}.

(** What the host router receives in one call
    [self.app.route(route, **options)(__callback)]: the path, the options,
    and the callback with its [__name__] and its [id]. *)
Record registration := mk_registration {
  reg_route : string;
  reg_methods : list string;
  reg_others : kwargs;
  reg_name : string;
  reg_callback_id : N;
  reg_callback : callable
}.

(** Lines 207-210: the set of verbs, and the list made of it (in an order
    Python does not fix). *)
Definition resolve_methods (method : string) (options : route_options)
    : list string :=
  let methods : gset string := list_to_set (default [] (opt_methods options)) in
  let methods :=
    if decide (method ∉ methods) then methods ∪ {[method]} else methods in
  elements methods.

(** What the comprehension of line 207 finds under [methods] among the
    keyword options: no such keyword, or a list or tuple of strings; a
    value that cannot be iterated, named by its class; or something else. *)
Inductive methods_read :=
  | MethodsBound (methods : option (list string))
  | MethodsNotIterable (cls : string)
  | MethodsOther (v : pyval).

Definition as_strings (l : list pyval) : option (list string) :=
  mapM (λ v, match v with PStr s => Some s | _ => None end) l.

Definition read_methods (options : kwargs) : methods_read :=
  match dict_get "methods" options with
  | None => MethodsBound None
  | Some v =>
      match v with
      | PList l | PTuple l =>
          match as_strings l with
          | Some verbs => MethodsBound (Some verbs)
          | None => MethodsOther v
          end
      | PNone | PBool _ | PInt _ | PFloat _ =>
          MethodsNotIterable (type_name (type_of v))
      | _ => MethodsOther v
      end
  end.

(** The keyword options but [methods]. *)
Definition other_options (options : kwargs) : kwargs :=
  filter (λ kv, kv.1 ≠ "methods") options.

(** What a decoration comes to.  [RouterCalled r]: line 215 is reached and
    the host router is called with [r]; what the router does with it, and
    gives back, is the router's.  [Refused e]: [e] is raised before that,
    and the router is not called.  [MethodsLeftOpen v]: [methods] is
    something else than the above (a string, a [dict], a sequence with an
    item that is not a string, an object of another class); what follows
    depends on what iterating that object gives, which this model of the
    values does not tell. *)
Inductive decorated :=
  | RouterCalled (r : registration)
  | Refused (e : exn)
  | MethodsLeftOpen (v : pyval).

(** Lines 205-216: [self.__wrap_route(route, method, **options)(func)], for
    a [func] named [func_name], when the callback created for it has the
    identity [callback_id].  The keywords are bound first; then line 207
    iterates [methods]; the router is called last. *)
Definition __wrap_route (route method : string) (options : kwargs)
    (func_name : string) (func : callable) (callback_id : N) : decorated :=
  match bound_twice ["self"; "route"; "method"] options with
  | Some param =>
      Refused (multiple_values_error "RouteFactory.__wrap_route" param)
  | None =>
      match read_methods options with
      | MethodsBound methods =>
          let options := mk_options methods (other_options options) in
          let __callback : callable := λ args kwargs, func args kwargs in
          RouterCalled
            {| reg_route := route;
               reg_methods := resolve_methods method options;
               reg_others := opt_others options;
               reg_name := func_name ++ pretty callback_id;
               reg_callback_id := callback_id;
               reg_callback := __callback |}
      | MethodsNotIterable cls =>
          Refused
            (mk_exn "TypeError" ("'" ++ cls ++ "' object is not iterable"))
      | MethodsOther v => MethodsLeftOpen v
      end
  end.

(** Lines 218-266: the verb methods, [def get(self, route, **options)] and
    the like. *)
Definition options (route : string) (opts : kwargs)
    (func_name : string) (func : callable) (callback_id : N) : decorated :=
  match bound_twice ["self"; "route"] opts with
  | Some param => Refused (multiple_values_error "RouteFactory.options" param)
  | None => __wrap_route route "OPTIONS" opts func_name func callback_id
  end.
Definition get (route : string) (opts : kwargs)
    (func_name : string) (func : callable) (callback_id : N) : decorated :=
  match bound_twice ["self"; "route"] opts with
  | Some param => Refused (multiple_values_error "RouteFactory.get" param)
  | None => __wrap_route route "GET" opts func_name func callback_id
  end.
Definition post (route : string) (opts : kwargs)
    (func_name : string) (func : callable) (callback_id : N) : decorated :=
  match bound_twice ["self"; "route"] opts with
  | Some param => Refused (multiple_values_error "RouteFactory.post" param)
  | None => __wrap_route route "POST" opts func_name func callback_id
  end.
Definition put (route : string) (opts : kwargs)
    (func_name : string) (func : callable) (callback_id : N) : decorated :=
  match bound_twice ["self"; "route"] opts with
  | Some param => Refused (multiple_values_error "RouteFactory.put" param)
  | None => __wrap_route route "PUT" opts func_name func callback_id
  end.
Definition delete (route : string) (opts : kwargs)
    (func_name : string) (func : callable) (callback_id : N) : decorated :=
  match bound_twice ["self"; "route"] opts with
  | Some param => Refused (multiple_values_error "RouteFactory.delete" param)
  | None => __wrap_route route "DELETE" opts func_name func callback_id
  end.

(** The verb a method of the factory stands for. *)
Inductive verb := OPTIONS | GET | POST | PUT | DELETE.

Definition verb_name (v : verb) : string :=
  match v with
  | OPTIONS => "OPTIONS"
  | GET => "GET"
  | POST => "POST"
  | PUT => "PUT"
  | DELETE => "DELETE"
  end.

Definition verb_method (v : verb) :=
  match v with
  | OPTIONS => options
  | GET => get
  | POST => post
  | PUT => put
  | DELETE => delete
  end.

(** One decoration, as the program makes it: some verb method is called
    with a path and keyword options, and its result applied to a function. *)
Record decoration := mk_decoration {
  dec_verb : verb;
  dec_route : string;
  dec_options : kwargs;
  dec_func_name : string;
  dec_func : callable;
  dec_callback_id : N
}.

Definition decorate (d : decoration) : decorated :=
  verb_method (dec_verb d) (dec_route d) (dec_options d)
    (dec_func_name d) (dec_func d) (dec_callback_id d).

(** The identifier the decoration registers its callback under. *)
Definition generated_name (d : decoration) : string :=
  dec_func_name d ++ pretty (dec_callback_id d).

(** The keyword options Python binds, with a [methods] the model follows. *)
Definition binds (options : kwargs) (methods : option (list string)) : Prop :=
  bound_twice ["self"; "route"; "method"] options = None
  ∧ read_methods options = MethodsBound methods.

End RouteFactory.

(** * What the claims speak of *)

(** ** The normalized result of an endpoint *)

(** What the response serializer is to make of the endpoint's result:
    the payload and the status. *)
Definition normalized (result : pyval) : pyval * pyval :=
  match result with
  | PList [] | PTuple [] => (PStr "", PInt 200)
  | PList [x] | PTuple [x] => (x, PInt 200)
  | PList (x :: y :: _) | PTuple (x :: y :: _) => (x, y)
  | _ => (result, PInt 200)
  end.

(** The answer to give for a payload and a status: what [Response] builds
    from the JSON text of the payload, the status and the content type. *)
Definition respond (other_status : pyval → outcome pyval)
    (payload status : pyval) : outcome pyval :=
  body ← json.dumps __JSONEncoder.default payload;
  Response other_status body status "application/json".

(** ** Payloads the encoder has a text for *)

(** The keys and the values the standard encoder has a JSON text for. *)
Definition json_key (k : pykey) : bool :=
  match k with
  | KOther _ => false
  | _ => true
  end.

Fixpoint json_typed (o : pyval) : bool :=
  match o with
  | PNone | PBool _ | PInt _ | PFloat _ | PStr _ => true
  | PList l | PTuple l => forallb json_typed l
  | PDict d => forallb (λ '(k, v), json_key k && json_typed v) d
  | PDatetime _ | PResponse _ _ _ | PObject _ => false
  end.

(** The payload with every [datetime] among its values (the payload itself,
    the items of its lists and tuples, the values of its dictionaries, at
    any depth) replaced by its ISO 8601 string. *)
Fixpoint iso_strings (o : pyval) : pyval :=
  match o with
  | PList l => PList (iso_strings <$> l)
  | PTuple l => PTuple (iso_strings <$> l)
  | PDict d => PDict ((λ '(k, v), (k, iso_strings v)) <$> d)
  | PDatetime d => PStr (isoformat d)
  | _ => o
  end.

(** The characters the JSON string encoder leaves as they are: from the
    space to the tilde, but for the quote and the backslash. *)
Definition chr_plain (c : ascii) : bool :=
  let n := N_of_ascii c in
  ((32 <=? n) && (n <=? 126))%N
  && bool_decide (c ≠ backslash) && bool_decide (c ≠ dquote).

Fixpoint str_plain (s : string) : bool :=
  match s with
  | "" => true
  | String c s' => chr_plain c && str_plain s'
  end.

(** [f] returns on [x] when [p] accepts [x], and raises a [TypeError]
    otherwise. *)
Definition decided_by {A B} (p : A → bool) (f : A → outcome B) (x : A) : Prop :=
  match f x with
  | Return _ => p x = true
  | Raise e => p x = false ∧ exc_class e = "TypeError"
  end.

(** ** Tracebacks used as examples *)

Definition script_entry : string :=
  "  File " ++ String dquote "app.py" ++ String dquote ", line 3, in view"
  ++ String newline "".

(** A [SyntaxError] as [compile] raises it on an open parenthesis, and an
    exception group whose message has two lines. *)
Definition never_closed : exn :=
  mk_exn "SyntaxError" "'(' was never closed (<string>, line 1)".

Definition two_lines : exn :=
  mk_exn "ExceptionGroup"
    ("line1" ++ String newline "line2 (1 sub-exception)").

(** What [traceback] prints for exceptions raised under one stack entry,
    without notes. *)
Definition script_traceback (e : exn) : traceback :=
  if decide (e = never_closed) then
    {| tb_before :=
         "Traceback (most recent call last):" ++ String newline ""
         ++ script_entry
         ++ "  File " ++ String dquote "<string>"
         ++ String dquote ", line 1" ++ String newline "    ("
         ++ String newline "    ^" ++ String newline "";
       tb_shown := Some ": '(' was never closed";
       tb_after := String newline "" |}
  else if decide (e = two_lines) then
    {| tb_before :=
         "  + Exception Group Traceback (most recent call last):"
         ++ String newline "  | " ++ script_entry ++ "  | ";
       tb_shown :=
         Some (": line1" ++ String newline "  | line2 (1 sub-exception)");
       tb_after :=
         String newline "  +-+---------------- 1 ----------------"
         ++ String newline "    | ValueError: x"
         ++ String newline "    +------------------------------------"
         ++ String newline "" |}
  else
    {| tb_before :=
         "Traceback (most recent call last):" ++ String newline ""
         ++ script_entry;
       tb_shown := None;
       tb_after := String newline "" |}.



(** A [Response] that refuses every status but [None] and the [int]s. *)
Definition refuse_status : pyval → outcome pyval :=
  λ _, TypeError "Invalid status argument".

(** ** Decorations used as examples *)

(** Two handlers: the name of the first is the name of the second
    followed by a digit. *)
Definition clash_h1 : RouteFactory.decoration :=
  RouteFactory.mk_decoration RouteFactory.GET "/a" []
    "h1" (λ _ _, Return PNone) 40000016.
Definition clash_h : RouteFactory.decoration :=
  RouteFactory.mk_decoration RouteFactory.GET "/b" []
    "h" (λ _ _, Return PNone) 140000016.

(** Two handlers, both named [index], on two paths. *)
Definition index_a : RouteFactory.decoration :=
  RouteFactory.mk_decoration RouteFactory.GET "/a"
    [("methods", PList [PStr "POST"]); ("strict_slashes", PBool false)]
    "index" (λ _ _, Return (PStr "a")) 140000016.
Definition index_b : RouteFactory.decoration :=
  RouteFactory.mk_decoration RouteFactory.POST "/b" [] "index"
    (λ _ _, Return (PStr "b")) 140000160.

(** ** Induction on values *)

(** Induction on values, through the lists nested in them. *)
Section pyval_nested_ind.
Variable P : pyval → Prop.
Hypothesis HNone : P PNone.
Hypothesis HBool : ∀ b, P (PBool b).
Hypothesis HInt : ∀ z, P (PInt z).
Hypothesis HFloat : ∀ f, P (PFloat f).
Hypothesis HStr : ∀ s, P (PStr s).
Hypothesis HList : ∀ l, Forall P l → P (PList l).
Hypothesis HTuple : ∀ l, Forall P l → P (PTuple l).
Hypothesis HDict : ∀ d, Forall (λ kv, P kv.2) d → P (PDict d).
Hypothesis HDatetime : ∀ d, P (PDatetime d).
Hypothesis HResponse : ∀ r s m, P (PResponse r s m).
Hypothesis HObject : ∀ cls, P (PObject cls).

Fixpoint pyval_nested_ind (o : pyval) : P o :=
  match o with
  | PNone => HNone
  | PBool b => HBool b
  | PInt z => HInt z
  | PFloat f => HFloat f
  | PStr s => HStr s
  | PList l =>
      HList l
        ((fix go (l : list pyval) : Forall P l :=
            match l with
            | [] => @List.Forall_nil _ P
            | x :: l' =>
                @List.Forall_cons _ P x l' (pyval_nested_ind x) (go l')
            end) l)
  | PTuple l =>
      HTuple l
        ((fix go (l : list pyval) : Forall P l :=
            match l with
            | [] => @List.Forall_nil _ P
            | x :: l' =>
                @List.Forall_cons _ P x l' (pyval_nested_ind x) (go l')
            end) l)
  | PDict d =>
      HDict d
        ((fix go (d : list (pykey * pyval)) : Forall (λ kv, P kv.2) d :=
            match d with
            | [] => @List.Forall_nil _ (λ kv, P kv.2)
            | (k, v) :: d' =>
                @List.Forall_cons _ (λ kv, P kv.2) (k, v) d'
                  (pyval_nested_ind v) (go d')
            end) d)
  | PDatetime d => HDatetime d
  | PResponse r s m => HResponse r s m
  | PObject cls => HObject cls
  end.
End pyval_nested_ind.

(** * The rest of the module *)

(** ** The decorator of [json_request_required] *)

(** [repr(d)] of a [dict] of strings, as [format] prints the errors. *)
Definition py_repr_dict (d : list (string * string)) : string :=
  "{" ++ str_join ", "
           ((λ '(k, v), py_repr_str k ++ ": " ++ py_repr_str v) <$> d)
  ++ "}".

Module validator.
Import json_request_required.

(** The specifiers [__verify_json] hands to [verify_json]. *)
Definition effective (required : list specifier_arg) : list string :=
  match required with
  | [] => []
  | ArgSeq _ l :: _ => l
  | ArgStr _ :: _ => specifier_str <$> required
  end.

Section decorator.
(** What [verify_json] gives on a body that is not a [dict], when there is a
    specifier to check: it depends on what [in] and indexing do on that
    object, which is left open. *)
Variable verify_other : list string → pyval → outcome (list (string * string)).

(** [self.__verify_json(body)], whatever the body is. *)
Definition verify_body (required : list specifier_arg) (body : pyval)
    : outcome (list (string * string)) :=
  match body with
  | PDict d => __verify_json required d
  | _ =>
      match effective required with
      | [] => Return []
      | specs => verify_other specs body
      end
  end.

(** Lines 104-108: the [__callback] of [__call__], with its first
    argument apart. *)
Definition __callback (required : list specifier_arg) (func : callable)
    (body : pyval) : callable := λ args kwargs,
  result ← verify_body required body;
  match result with
  | [] => func (body :: args) kwargs
  | _ =>
      AssertionError
        ("Some keys did not meet the requirements: " ++ py_repr_dict result)
  end.

(** Lines 103-109: the decorator built on [required], applied to [func].
    Python binds the arguments of [__callback(body, *args, **kwargs)]
    first: the first positional argument is the body, and a keyword named
    [body] beside it is refused; with no positional argument the body is
    the keyword [body], and without one the call is refused (the texts are
    the ones of Python 3.10 and later).  [json_request] always gives the
    body as the first positional argument. *)
Definition __call__ (required : list specifier_arg) (func : callable)
    (req : request.t) : callable :=
  json_request
    (λ args kwargs,
       match args with
       | body :: args' =>
           match dict_get "body" kwargs with
           | Some _ =>
               multiple_values
                 "json_request_required.__call__.<locals>.__callback" "body"
           | None => __callback required func body args' kwargs
           end
       | [] =>
           match dict_get "body" kwargs with
           | Some body =>
               __callback required func body []
                 (filter (λ kv, kv.1 ≠ "body") kwargs)
           | None =>
               TypeError
                 ("json_request_required.__call__.<locals>.__callback() "
                  ++ "missing 1 required positional argument: 'body'")
           end
       end) req.

End decorator.
End validator.

(** ** What the further properties speak of *)

(** The body meets a requirement: the specifier parses, its key is in the
    body, and the value has the class the type name stands for, if there is a
    type name other than ["any"]. *)
Definition requirement_met (obj : list (pykey * pyval)) (spec : string)
    : bool :=
  match json_request_required.parse_specifier spec with
  | Raise _ => false
  | Return (_type_name, key) =>
      match dict_get (KStr key) obj, _type_name with
      | None, _ => false
      | Some _, None => true
      | Some v, Some t =>
          if decide (t = "any") then true
          else match dict_get t json_request_required.__types with
               | Some ty => json_request_required.type_is v ty
               | None => false
               end
      end
  end.

(** The key a specifier is about, when it parses. *)
Definition specifier_key (spec : string) : option string :=
  match json_request_required.parse_specifier spec with
  | Return (_, key) => Some key
  | Raise _ => None
  end.

(** No [datetime] among the values of the payload. *)
Fixpoint datetime_free (o : pyval) : bool :=
  match o with
  | PList l | PTuple l => forallb datetime_free l
  | PDict d => forallb (λ '(k, v), datetime_free v) d
  | PDatetime _ => false
  | _ => true
  end.

(** The record an unmet requirement leaves in the errors: the key with
    ["missing"], or with the type name the value is not of. *)
Definition failure_record (obj : list (pykey * pyval)) (spec : string)
    : option (string * string) :=
  match json_request_required.parse_specifier spec with
  | Raise _ => None
  | Return (_type_name, key) =>
      match dict_get (KStr key) obj, _type_name with
      | None, _ => Some (key, "missing")
      | Some _, None => None
      | Some v, Some t =>
          if decide (t = "any") then None
          else match dict_get t json_request_required.__types with
               | Some ty =>
                   if json_request_required.type_is v ty then None
                   else Some (key, "is not of type " ++ t)
               | None => None
               end
      end
  end.

(** ** A request used as an example *)

Definition ann_body : list (pykey * pyval) :=
  [(KStr "name", PStr "Ann"); (KStr "age", PInt 41); (KStr "tags", PNone)].

Definition ann_request : request.t :=
  request.mk (request.JsonProperty (Return (PDict ann_body)))
    PNone PNone PNone PNone.

(** A specifier the validation can always handle: at most one colon, and a
    type name, if any, that is in the table once in lower case. *)
Definition well_formed (spec : string) : bool :=
  match json_request_required.parse_specifier spec with
  | Raise _ => false
  | Return (None, _) => true
  | Return (Some t, _) =>
      bool_decide (is_Some (dict_get t json_request_required.__types))
  end.

(** What a turn of the loop that returns leaves in the errors. *)
Definition record_turn (obj : list (pykey * pyval))
    (errors : list (string * string)) (spec : string)
    : list (string * string) :=
  match failure_record obj spec with
  | Some (k, msg) => dict_set k msg errors
  | None => errors
  end.

(** * Properties *)

(** ** Outcomes *)

Lemma bind_Return {A B} (f : A → outcome B) (a : A) :
  (Return a ≫= f) = f a.
Proof. reflexivity. Qed.

Lemma bind_Raise {A B} (f : A → outcome B) (e : exn) :
  (Raise e ≫= f) = Raise e.
Proof. reflexivity. Qed.

Lemma Return_not_Raise {A} (m : outcome A) (a : A) :
  m = Return a → ¬ ∃ e, m = Raise e.
Proof. intros -> [e He]. discriminate. Qed.

(** ** Dictionaries *)

Section dict_facts.
Context {K V : Type} `{EqDecision K}.
Implicit Types (k : K) (v : V) (d : list (K * V)).


Lemma dict_get_set_ne k k' v d :
  k ≠ k' → dict_get k' (dict_set k v d) = dict_get k' d.
Proof.
  intros Hne. induction d as [|[k0 v0] d IH]; simpl.
  - by rewrite decide_False.
  - destruct (decide (k0 = k)) as [->|Hne0]; simpl.
    + by rewrite !decide_False.
    + by rewrite IH.
Qed.

End dict_facts.

(** ** Strings *)

Lemma str_contains_count c s : str_contains c s = false ↔ str_count c s = 0.
Proof.
  induction s as [|c' s IH]; simpl; [done|].
  destruct (decide (c' = c)); simpl; [split; [done|lia]|done].
Qed.

Lemma str_split_length c s : length (str_split c s) = S (str_count c s).
Proof.
  induction s as [|c' s IH]; simpl; [done|].
  destruct (decide (c' = c)); simpl.
  - by rewrite IH.
  - destruct (str_split c s); simpl in *; [done|lia].
Qed.

Lemma str_split_none c s : str_contains c s = false → str_split c s = [s].
Proof.
  induction s as [|c' s IH]; simpl; [done|].
  destruct (decide (c' = c)); [done|]. intros Hs. by rewrite IH.
Qed.

Lemma str_split_one c t k :
  str_contains c t = false → str_contains c k = false →
  str_split c (t ++ String c k) = [t; k].
Proof.
  intros Ht Hk. induction t as [|c' t IH]; simpl in *.
  - rewrite decide_True by done. by rewrite str_split_none.
  - destruct (decide (c' = c)); [done|]. by rewrite IH.
Qed.

Lemma str_contains_app c t k :
  str_contains c (t ++ k) = str_contains c t || str_contains c k.
Proof.
  induction t as [|c' t IH]; simpl; [done|]. by destruct (decide (c' = c)).
Qed.

Lemma str_app_nil_l s : "" ++ s = s.
Proof. reflexivity. Qed.

Lemma str_app_cons c s t : String c s ++ t = String c (s ++ t).
Proof. reflexivity. Qed.

Lemma str_app_nil_r s : s ++ "" = s.
Proof.
  induction s as [|c s IH]; [done|]. by rewrite str_app_cons, IH.
Qed.

Lemma str_app_assoc s t u : (s ++ t) ++ u = s ++ t ++ u.
Proof.
  induction s as [|c s IH]; [done|]. by rewrite !str_app_cons, IH.
Qed.

Lemma is_substring_refl s : is_substring s s.
Proof. exists "", "". by rewrite str_app_nil_l, str_app_nil_r. Qed.


Lemma is_substring_app_l s t u : is_substring s t → is_substring s (u ++ t).
Proof.
  intros (before & after & ->). exists (u ++ before), after.
  by rewrite str_app_assoc.
Qed.

Lemma is_substring_app_r s t u : is_substring s t → is_substring s (t ++ u).
Proof.
  intros (before & after & ->). exists before, (after ++ u).
  by rewrite !str_app_assoc.
Qed.

(** ** The validator *)

Module validator_facts.
Import json_request_required.

Implicit Types (obj : list (pykey * pyval)) (errors : list (string * string)).

(** A specifier without a colon is the key, with no type name. *)
Lemma parse_bare key :
  str_contains ":" key = false → parse_specifier key = Return (None, key).
Proof. intros Hk. unfold parse_specifier. by rewrite Hk. Qed.

(** A specifier with one colon gives the type name, in lower case, and the
    key. *)
Lemma parse_typed t k :
  str_contains ":" t = false → str_contains ":" k = false →
  parse_specifier (t ++ String ":" k) = Return (Some (str_lower t), k).
Proof.
  intros Ht Hk. unfold parse_specifier.
  rewrite str_contains_app. simpl. rewrite orb_true_r.
  by rewrite str_split_one.
Qed.

(** A specifier with two colons or more cannot be unpacked. *)
Lemma parse_too_many key :
  (2 ≤ str_count ":" key)%nat →
  parse_specifier key = ValueError "too many values to unpack (expected 2)".
Proof.
  intros Hc. unfold parse_specifier.
  destruct (str_contains ":" key) eqn:Hk.
  - pose proof (str_split_length ":" key) as Hlen.
    destruct (str_split ":" key) as [|p [|q [|r l]]]; simpl in Hlen;
      first [lia | done].
  - apply str_contains_count in Hk. lia.
Qed.

(** No type name and the type name ["any"] are checked alike. *)
Lemma check_any obj errors key :
  check_specifier obj errors None key
  = check_specifier obj errors (Some "any") key.
Proof. unfold check_specifier. by destruct (dict_get _ obj). Qed.

Lemma verify_loop_app obj errors l1 l2 :
  verify_loop obj errors (l1 ++ l2)
  = (verify_loop obj errors l1 ≫= λ errors', verify_loop obj errors' l2).
Proof.
  revert errors. induction l1 as [|key l1 IH]; intros errors; simpl; [done|].
  destruct (verify_step obj errors key) as [errors'|e]; simpl; [apply IH|done].
Qed.

Lemma verify_json_snoc obj l key errors :
  verify_json obj l = Return errors →
  ∀ l', verify_json obj (l ++ key :: l')
        = (verify_step obj errors key ≫= λ errors', verify_loop obj errors' l').
Proof.
  unfold verify_json. intros Hl l'. by rewrite verify_loop_app, Hl.
Qed.



End validator_facts.

(** ** Claims about the required-field validator *)

Section validator_claims.
Import json_request_required validator_facts.




(** C4, at the input where the code leaves it.  [key.split(":")] splits at
    every colon, so a specifier with a second colon gives three pieces and
    the unpacking into [_type_name, key] raises [ValueError]: the rest of the
    specifier is not kept as the key. *)
Theorem C4_second_colon_raises :
  parse_specifier "str:a:b"
  = ValueError "too many values to unpack (expected 2)"
  ∧ (∀ obj : list (pykey * pyval),
       verify_json obj ["str:a:b"]
       = ValueError "too many values to unpack (expected 2)")
  ∧ (∀ key : string,
       (2 ≤ str_count ":" key)%nat →
       parse_specifier key
       = ValueError "too many values to unpack (expected 2)").
Proof.
  split; [reflexivity|]. split; [reflexivity|]. apply parse_too_many.
Qed.

Lemma C4_second_colon_raises_witness :
  (2 ≤ str_count ":" "int:a:b:c")%nat
  ∧ parse_specifier "int:a:b:c"
    = ValueError "too many values to unpack (expected 2)".
Proof.
  assert (2 ≤ str_count ":" "int:a:b:c")%nat as Hcount by (vm_compute; lia).
  split; [exact Hcount|].
  exact (proj2 (proj2 C4_second_colon_raises) "int:a:b:c" Hcount).
Defined.

(** The claim of C5 fails on a body without the key: nothing is raised. *)
Lemma C5_counterexample :
  verify_json [] ["weird:field"] = Return [("field", "missing")]
  ∧ ¬ ∃ e, verify_json [] ["weird:field"] = Raise e.
Proof. split; [reflexivity|]. intros [e He]. discriminate He. Qed.

(** C5, amended.  When the specifiers before it pass through the loop
    without an exception, a specifier that parses to a type name which is not
    in the table, and to a key the body has, makes the validation raise
    [AssertionError] with a message that names the type name and lists the
    names of the table. *)
Theorem C5_unknown_tag_on_present_key
    (obj : list (pykey * pyval)) (errors : list (string * string))
    (required required' : list string) (spec tag key : string) :
  verify_json obj required = Return errors →
  parse_specifier spec = Return (Some tag, key) →
  dict_get tag __types = None →
  is_Some (dict_get (KStr key) obj) →
  verify_json obj (required ++ spec :: required')
  = AssertionError
      (tag ++ " is not a valid type. "
       ++ "The valid types are: any str int float bool list dict.").
Proof.
  intros Hpre Hparse Htag [v Hkey].
  rewrite (verify_json_snoc _ _ _ _ Hpre).
  unfold verify_step. rewrite Hparse. simpl.
  unfold check_specifier. rewrite Hkey.
  destruct (decide (tag = "any")) as [->|_]; [discriminate Htag|].
  by rewrite Htag.
Qed.

Lemma C5_unknown_tag_on_present_key_witness :
  verify_json [(KStr "field", PInt 1)] ["name"; "weird:field"; "int:age"]
  = AssertionError
      ("weird is not a valid type. "
       ++ "The valid types are: any str int float bool list dict.").
Proof.
  exact (C5_unknown_tag_on_present_key
           [(KStr "field", PInt 1)] [("name", "missing")]
           ["name"] ["int:age"] "weird:field" "weird" "field"
           eq_refl eq_refl eq_refl (ex_intro _ (PInt 1) eq_refl)).
Defined.

(** C8.  The validator built with the specifiers as separate arguments and
    the one built with the same specifiers in one list or tuple validate
    every body alike. *)
Theorem C8_spread_and_packed_agree
    (obj : list (pykey * pyval)) (specs : list string) (is_tuple : bool) :
  __verify_json (ArgStr <$> specs) obj
  = __verify_json [ArgSeq is_tuple specs] obj.
Proof.
  assert (specifier_str <$> (ArgStr <$> specs) = specs) as Hstr.
  { induction specs as [|s' specs IH]; [done|].
    rewrite !fmap_cons. by rewrite IH. }
  destruct specs as [|s specs]; [reflexivity|].
  change (verify_json obj (specifier_str <$> (ArgStr <$> s :: specs))
          = verify_json obj (s :: specs)).
  by rewrite Hstr.
Qed.



End validator_claims.

(** ** Claims about the exception guard and the extractors *)

Lemma exception_line_names_class traceback_of e :
  is_substring (exc_class e) (exception_line traceback_of e).
Proof. apply is_substring_app_r, is_substring_refl. Qed.

Lemma format_exc_names_class traceback_of e :
  is_substring (exc_class e) (format_exc traceback_of e).
Proof.
  unfold format_exc.
  apply is_substring_app_l, is_substring_app_r.
  apply exception_line_names_class.
Qed.







(** The text for an exception raised in a script. *)
Example format_exc_key_error :
  format_exc script_traceback (mk_exn "KeyError" "'name'")
  = "Traceback (most recent call last):"
    ++ String newline "  File " ++ String dquote "app.py"
    ++ String dquote ", line 3, in view"
    ++ String newline "KeyError: 'name'" ++ String newline "".
Proof. reflexivity. Qed.

(** The text for the [SyntaxError], and the text for the exception group. *)
Example format_exc_syntax_error :
  format_exc script_traceback never_closed
  = "Traceback (most recent call last):"
    ++ String newline "  File " ++ String dquote "app.py"
    ++ String dquote ", line 3, in view"
    ++ String newline "  File " ++ String dquote "<string>"
    ++ String dquote ", line 1"
    ++ String newline "    ("
    ++ String newline "    ^"
    ++ String newline "SyntaxError: '(' was never closed"
    ++ String newline "".
Proof. reflexivity. Qed.

Example format_exc_group :
  format_exc script_traceback two_lines
  = "  + Exception Group Traceback (most recent call last):"
    ++ String newline "  |   File " ++ String dquote "app.py"
    ++ String dquote ", line 3, in view"
    ++ String newline "  | ExceptionGroup: line1"
    ++ String newline "  | line2 (1 sub-exception)"
    ++ String newline "  +-+---------------- 1 ----------------"
    ++ String newline "    | ValueError: x"
    ++ String newline "    +------------------------------------"
    ++ String newline "".
Proof. reflexivity. Qed.

(** When [request.json] is a mapping, or a method that returns one, the
    endpoint is called with the mapping before the other arguments. *)
Lemma json_request_mapping func req d args kw :
  request.json req = request.JsonProperty (Return (PDict d))
  ∨ request.json req = request.JsonMethod (Return (PDict d)) →
  json_request func req args kw = func (PDict d :: args) kw.
Proof. unfold json_request. by intros [-> | ->]. Qed.

(** When [request.json] is a method that returns [None], the extractor
    raises its [AssertionError] and the endpoint is not called. *)
Lemma json_request_method_none func req args kw :
  request.json req = request.JsonMethod (Return PNone) →
  json_request func req args kw
  = AssertionError "Request body is not application/json".
Proof. unfold json_request. by intros ->. Qed.

(** When reading [request.json] raises, or calling it does, the exception
    goes through as it is. *)
Lemma json_request_raises func req e args kw :
  request.json req = request.JsonProperty (Raise e)
  ∨ request.json req = request.JsonMethod (Raise e) →
  json_request func req args kw = Raise e.
Proof. unfold json_request. by intros [-> | ->]. Qed.

(** C2, at the input where the code leaves it.  When [request.json] is the
    value [None], as the [json] property of a Flask request without a JSON
    body is, the extractor calls [None]: a [TypeError] is raised, not the
    [AssertionError] of line 42, which this request never reaches.  The
    endpoint is not called.  It is so for every value of the property that is
    not a [dict]. *)
Theorem C2_none_property_is_called :
  (∀ (func : callable) (args_ headers cookies data : pyval)
     (args : list pyval) (kw : kwargs),
     json_request func
       (request.mk (request.JsonProperty (Return PNone))
          args_ headers cookies data) args kw
     = TypeError "'NoneType' object is not callable")
  ∧ (∀ (func : callable) (req : request.t) (v : pyval)
       (args : list pyval) (kw : kwargs),
       request.json req = request.JsonProperty (Return v) →
       type_of v ≠ TDict →
       json_request func req args kw = not_callable v).
Proof.
  split; [reflexivity|].
  intros func req v args kw Hreq Hv. unfold json_request. rewrite Hreq.
  by destruct v.
Qed.

(** The other extractors call the endpoint with the facet of the request, or
    with an empty [dict] when the facet is [None]. *)
Lemma extractors_never_raise func req args kw :
  querystring_request func req args kw
  = func (or_empty_dict (request.args req) :: args) kw
  ∧ headers_request func req args kw
    = func (or_empty_dict (request.headers req) :: args) kw
  ∧ cookies_request func req args kw
    = func (or_empty_dict (request.cookies req) :: args) kw
  ∧ body_request func req args kw
    = func (or_empty_dict (request.data req) :: args) kw.
Proof. done. Qed.

(** ** Claims about the response serializer *)

(** What [json_response] does, in one equation. *)
Lemma json_response_eq other_status (func : callable) args kw :
  json_response other_status func args kw
  = (result ← func args kw;
     respond other_status (normalized result).1 (normalized result).2).
Proof.
  unfold json_response, respond.
  destruct (func args kw) as [result|e]; simpl; [|done].
  destruct result as [| | | | |[|x [|y l]]|[|x [|y l]]| | | |]; simpl;
    try done; by destruct (json.dumps _ _).
Qed.

(** The response of status 200 is not the normalized status [None] of this
    result: what C6 says of the status fails here. *)
Lemma C6_counterexample :
  normalized (PTuple [PStr "x"; PNone]) = (PStr "x", PNone)
  ∧ json_response refuse_status
      (λ _ _, Return (PTuple [PStr "x"; PNone])) [] []
    = Return (PResponse (String dquote ("x" ++ String dquote ""))
                (PInt 200) "application/json").
Proof. split; reflexivity. Qed.

(** C6, amended.  The serializer normalizes the result of the endpoint: a
    value that is no list or tuple is the payload, with 200; an empty
    sequence gives the empty string, with 200; a sequence of one item gives
    the item, with 200; a longer sequence gives its first item as payload
    and its second as status, whatever follows.  It answers with what
    [Response] builds from the JSON text of the payload, the status and
    [application/json]: a response with this body and this content type,
    whose status is the normalized one when that is an [int], and 200 when
    it is [None].  An exception of the endpoint goes through.  The three
    examples of the specification follow. *)
Theorem C6_response_normalized
    (other_status : pyval → outcome pyval)
    (func : callable) (args : list pyval) (kw : kwargs) :
  (∀ v : pyval,
     func args kw = Return v → type_of v ≠ TList → type_of v ≠ TTuple →
     json_response other_status func args kw
     = respond other_status v (PInt 200))
  ∧ (func args kw = Return (PList []) ∨ func args kw = Return (PTuple []) →
     json_response other_status func args kw
     = respond other_status (PStr "") (PInt 200))
  ∧ (∀ x : pyval,
       func args kw = Return (PList [x]) ∨ func args kw = Return (PTuple [x]) →
       json_response other_status func args kw
       = respond other_status x (PInt 200))
  ∧ (∀ (x y : pyval) (rest : list pyval),
       func args kw = Return (PList (x :: y :: rest))
       ∨ func args kw = Return (PTuple (x :: y :: rest)) →
       json_response other_status func args kw = respond other_status x y)
  ∧ (∀ e : exn,
       func args kw = Raise e →
       json_response other_status func args kw = Raise e)
  ∧ (∀ (payload : pyval) (n : Z),
       respond other_status payload (PInt n)
       = (body ← json.dumps __JSONEncoder.default payload;
          Return (PResponse body (PInt n) "application/json")))
  ∧ (∀ payload : pyval,
       respond other_status payload PNone
       = (body ← json.dumps __JSONEncoder.default payload;
          Return (PResponse body (PInt 200) "application/json")))
  ∧ json_response other_status
      (λ _ _, Return (PDict [(KStr "a", PInt 1)])) [] []
    = Return (PResponse ("{" ++ String dquote "a" ++ String dquote ": 1}")
                (PInt 200) "application/json")
  ∧ json_response other_status
      (λ _ _, Return (PTuple [PDict [(KStr "a", PInt 1)]; PInt 201])) [] []
    = Return (PResponse ("{" ++ String dquote "a" ++ String dquote ": 1}")
                (PInt 201) "application/json")
  ∧ json_response other_status (λ _ _, Return (PTuple [])) [] []
    = Return (PResponse (String dquote (String dquote ""))
                (PInt 200) "application/json").
Proof.
  repeat split; try reflexivity.
  - intros v Hv Hl Ht. rewrite json_response_eq, Hv. by destruct v.
  - intros [Hv|Hv]; by rewrite json_response_eq, Hv.
  - intros x [Hv|Hv]; by rewrite json_response_eq, Hv.
  - intros x y rest [Hv|Hv]; by rewrite json_response_eq, Hv.
  - intros e He. by rewrite json_response_eq, He.
Qed.

Lemma C6_response_normalized_witness :
  json_response refuse_status
    (λ _ _, Return (PTuple [PList [PInt 1; PInt 2]; PInt 404; PStr "x"]))
    [] []
  = Return (PResponse "[1, 2]" (PInt 404) "application/json").
Proof.
  exact (proj1 (proj2 (proj2 (proj2
           (C6_response_normalized refuse_status
              (λ _ _,
                 Return (PTuple [PList [PInt 1; PInt 2]; PInt 404; PStr "x"]))
              [] []))))
           (PList [PInt 1; PInt 2]) (PInt 404) [PStr "x"]
           (or_intror eq_refl)).
Defined.

(** A status the constructor refuses: the serializer raises what the
    constructor raises, after the payload is encoded. *)
Example json_response_refused_status :
  json_response refuse_status
    (λ _ _, Return (PTuple [PInt 1; PDict []])) [] []
  = TypeError "Invalid status argument".
Proof. reflexivity. Qed.

(** ** Claims about the JSON encoder *)

Lemma outcome_mapM_ext {A B} (f g : A → outcome B) (h : A → A) (l : list A) :
  Forall (λ x, f x = g (h x)) l →
  outcome_mapM f l = outcome_mapM g (h <$> l).
Proof.
  induction 1 as [|x l Hx _ IH]; [done|].
  rewrite fmap_cons. simpl. by rewrite Hx, IH.
Qed.

(** A loop whose turns return on the items that [p] accepts, and raise a
    [TypeError] on the others, returns when [p] accepts all the items and
    raises a [TypeError] otherwise. *)
Lemma outcome_mapM_decided {A B} (p : A → bool) (f : A → outcome B) l :
  Forall (decided_by p f) l →
  match outcome_mapM f l with
  | Return _ => forallb p l = true
  | Raise e => forallb p l = false ∧ exc_class e = "TypeError"
  end.
Proof.
  induction 1 as [|x l Hx _ IH]; simpl; [done|].
  unfold decided_by in Hx. destruct (f x) as [y|e]; simpl.
  - rewrite Hx. simpl. by destruct (outcome_mapM f l).
  - destruct Hx as [-> ?]. done.
Qed.

Lemma dumps_iso_strings (o : pyval) :
  json.dumps __JSONEncoder.default o = json.dumps_standard (iso_strings o).
Proof.
  unfold json.dumps, json.dumps_standard.
  induction o as [| | | | |l IH|l IH|d IH| | |] using pyval_nested_ind;
    try reflexivity.
  - simpl. by rewrite (outcome_mapM_ext _ _ iso_strings l IH).
  - simpl. by rewrite (outcome_mapM_ext _ _ iso_strings l IH).
  - simpl.
    rewrite (outcome_mapM_ext _
               (λ '(k, v),
                  name ← json.encode_key k;
                  s ← json.iterencode json.JSONEncoder_default v;
                  Return (name ++ ": " ++ s))
               (λ '(k, v), (k, iso_strings v)) d); [done|].
    eapply Forall_impl; [exact IH|]. intros [k v] Hv. simpl in *.
    by rewrite Hv.
Qed.

Lemma dumps_standard_decided (o : pyval) :
  decided_by json_typed json.dumps_standard o.
Proof.
  unfold decided_by, json.dumps_standard.
  induction o as [|[]| | | |l IH|l IH|d IH| | |] using pyval_nested_ind;
    try done.
  - simpl. pose proof (outcome_mapM_decided json_typed _ l IH) as Hl.
    by destruct (outcome_mapM _ l).
  - simpl. pose proof (outcome_mapM_decided json_typed _ l IH) as Hl.
    by destruct (outcome_mapM _ l).
  - simpl.
    pose proof (outcome_mapM_decided
                  (λ '(k, v), json_key k && json_typed v)
                  (λ '(k, v),
                     name ← json.encode_key k;
                     s ← json.iterencode json.JSONEncoder_default v;
                     Return (name ++ ": " ++ s)) d) as Hd.
    destruct (outcome_mapM _ d); apply Hd.
    all: eapply Forall_impl; [exact IH|]; intros [k v] Hv; simpl in Hv.
    all: unfold decided_by in *.
    all: destruct k as [| |[]| | |]; simpl; try done.
    all: by destruct (json.iterencode _ v).
Qed.

Lemma str_digits_app s t : str_digits (s ++ t) = str_digits s && str_digits t.
Proof.
  induction s as [|c s IH]; [done|].
  rewrite str_app_cons. simpl. by rewrite IH, andb_assoc.
Qed.

Lemma pretty_N_char_digit x : chr_digit (pretty_N_char x) = true.
Proof. unfold pretty_N_char. by repeat case_match. Qed.

Lemma pretty_N_go_digits x s :
  str_digits s = true → str_digits (pretty_N_go x s) = true.
Proof.
  revert s. induction (N.lt_wf_0 x) as [x _ IH]; intros s Hs.
  destruct (decide (x = 0%N)) as [->|Hx]; [by rewrite pretty_N_go_0|].
  rewrite pretty_N_go_step by lia.
  apply IH; [apply N.div_lt; lia|].
  simpl. by rewrite pretty_N_char_digit.
Qed.

(** [str(n)] of a natural number is made of digits. *)
Lemma pretty_N_digits (x : N) : str_digits (pretty x) = true.
Proof.
  unfold pretty, pretty_N. case_decide; [done|]. by apply pretty_N_go_digits.
Qed.

(** The JSON string encoder leaves plain characters as they are. *)
Lemma escape_plain (s : string) : str_plain s = true → json.escape s = s.
Proof.
  induction s as [|c s IH]; [done|]. simpl.
  intros [Hc Hs]%andb_true_iff. rewrite (IH Hs). clear IH Hs.
  unfold chr_plain in Hc.
  apply andb_true_iff in Hc as [[Hn Hb]%andb_true_iff Hq].
  apply bool_decide_eq_true in Hb, Hq.
  unfold json.escape_chr. rewrite !decide_False by done. by rewrite Hn.
Qed.

Lemma str_plain_app (s t : string) :
  str_plain (s ++ t) = str_plain s && str_plain t.
Proof.
  induction s as [|c s IH]; [done|].
  rewrite str_app_cons. simpl. by rewrite IH, andb_assoc.
Qed.

Lemma chr_digit_plain (c : ascii) : chr_digit c = true → chr_plain c = true.
Proof. by destruct c as [[] [] [] [] [] [] [] []]. Qed.

Lemma str_digits_plain (s : string) : str_digits s = true → str_plain s = true.
Proof.
  induction s as [|c s IH]; [done|]. simpl.
  intros [Hc Hs]%andb_true_iff. by rewrite (chr_digit_plain c Hc), IH.
Qed.

Lemma zeros_plain (n : nat) : str_plain (zeros n) = true.
Proof. induction n as [|n IH]; [done|]. simpl. by rewrite IH. Qed.

Lemma pretty_Z_plain (z : Z) : str_plain (pretty z) = true.
Proof.
  destruct z as [|p|p]; [done| |].
  - apply str_digits_plain, (pretty_N_digits (Npos p)).
  - change (str_plain (String "-" (pretty (Npos p))) = true). simpl.
    apply str_digits_plain, (pretty_N_digits (Npos p)).
Qed.

Lemma zero_pad_plain (width : nat) (z : Z) : str_plain (zero_pad width z) = true.
Proof.
  unfold zero_pad. by rewrite str_plain_app, zeros_plain, pretty_Z_plain.
Qed.

Lemma format_offset_plain (off : option Z) : str_plain (format_offset off) = true.
Proof.
  destruct off as [off|]; [|done]. unfold format_offset. cbv zeta.
  rewrite !str_plain_app, !zero_pad_plain.
  destruct (off <? 0)%Z, (Z.abs off `mod` 60 =? 0)%Z; try done;
    by rewrite str_plain_app, zero_pad_plain.
Qed.

(** [isoformat()] gives nothing the JSON string encoder escapes. *)
Lemma isoformat_plain (d : datetime) : str_plain (isoformat d) = true.
Proof.
  unfold isoformat.
  rewrite !str_plain_app, !zero_pad_plain, format_offset_plain.
  destruct (dt_microsecond d =? 0)%Z; [done|].
  by rewrite str_plain_app, zero_pad_plain.
Qed.

(** No ISO 8601 string for these two, but a [TypeError]: a [datetime.date]
    among the values, and a [datetime] used as the key of a mapping. *)
Lemma C7_counterexample :
  json.dumps __JSONEncoder.default (PDict [(KStr "day", PObject "date")])
  = TypeError "Object of type date is not JSON serializable"
  ∧ json.dumps __JSONEncoder.default (PDict [(KOther "datetime", PInt 1)])
    = TypeError "keys must be str, int, float, bool or None, not datetime".
Proof. split; reflexivity. Qed.

(** C7, amended.  The hook of the encoder turns a [datetime.datetime] into
    its [isoformat()] string, which the serializer writes between quotes as
    it is: so [2024-01-01T00:00:00] for the first instant of 2024, with the
    microseconds and the UTC offset when there are some.  On any other
    object the hook raises [TypeError].  So the serializer encodes a
    payload as the standard encoder encodes the payload with each
    [datetime] among its values (the payload, the items of the lists and
    tuples, the values of the mappings, at any depth) replaced by its ISO
    8601 string; it returns a text when, after this replacement, every
    value has a JSON type and every key is a [str], [int], [float], [bool]
    or [None], and raises a [TypeError] otherwise. *)
Theorem C7_datetime_as_iso_string :
  (∀ d : datetime,
     __JSONEncoder.default (PDatetime d) = Return (PStr (isoformat d))
     ∧ json.dumps __JSONEncoder.default (PDatetime d)
       = Return (String dquote (isoformat d ++ String dquote "")))
  ∧ isoformat (mk_datetime 2024 1 1 0 0 0 0 None) = "2024-01-01T00:00:00"
  ∧ isoformat (mk_datetime 1999 12 31 23 59 58 250000 (Some (-19800)%Z))
    = "1999-12-31T23:59:58.250000-05:30"
  ∧ json.dumps __JSONEncoder.default
      (PDict [(KStr "at", PDatetime (mk_datetime 2024 1 1 0 0 0 0 None))])
    = Return ("{" ++ String dquote "at" ++ String dquote ": "
              ++ String dquote "2024-01-01T00:00:00" ++ String dquote "}")
  ∧ (∀ o : pyval,
       type_of o ≠ TDatetime →
       __JSONEncoder.default o
       = TypeError ("Object of type " ++ type_name (type_of o)
                    ++ " is not JSON serializable"))
  ∧ (∀ o : pyval,
       json.dumps __JSONEncoder.default o
       = json.dumps_standard (iso_strings o))
  ∧ (∀ o : pyval,
       match json.dumps __JSONEncoder.default o with
       | Return _ => json_typed (iso_strings o) = true
       | Raise e =>
           json_typed (iso_strings o) = false ∧ exc_class e = "TypeError"
       end).
Proof.
  split.
  { intros d. split; [done|].
    change (Return (json.encode_basestring_ascii (isoformat d))
            = Return (String dquote (isoformat d ++ String dquote ""))).
    unfold json.encode_basestring_ascii.
    by rewrite (escape_plain _ (isoformat_plain d)). }
  do 3 (split; [reflexivity|]). split; [|split].
  - intros o Ho. by destruct o.
  - apply dumps_iso_strings.
  - intros o. rewrite dumps_iso_strings.
    apply (dumps_standard_decided (iso_strings o)).
Qed.

Lemma C7_datetime_as_iso_string_witness :
  __JSONEncoder.default (PObject "set")
  = TypeError "Object of type set is not JSON serializable".
Proof.
  apply (proj1 (proj2 (proj2 (proj2 (proj2 C7_datetime_as_iso_string))))
           (PObject "set")).
  discriminate.
Defined.

Example dumps_fixed_instant :
  json.dumps __JSONEncoder.default
    (PDict [(KStr "at", PDatetime (mk_datetime 2024 1 1 0 0 0 0 None))])
  = Return ("{" ++ String dquote "at" ++ String dquote ": "
            ++ String dquote "2024-01-01T00:00:00" ++ String dquote "}").
Proof. reflexivity. Qed.

Example dumps_aware_instant :
  isoformat (mk_datetime 2024 1 1 0 0 0 250000 (Some 3600%Z))
  = "2024-01-01T00:00:00.250000+01:00".
Proof. reflexivity. Qed.

Example dumps_set_refused :
  json.dumps __JSONEncoder.default (PList [PInt 1; PObject "set"])
  = TypeError "Object of type set is not JSON serializable".
Proof. reflexivity. Qed.

(** ** Claims about the route factory *)

(** Two ways to cut one string: one of the cuts is further to the right. *)
Lemma str_app_eq_app a s b t :
  a ++ s = b ++ t →
  ∃ u, (a = b ++ u ∧ t = u ++ s) ∨ (b = a ++ u ∧ s = u ++ t).
Proof.
  revert b. induction a as [|c a IH]; intros b Heq.
  - exists b. right. by rewrite !str_app_nil_l in *.
  - destruct b as [|c' b].
    + exists (String c a). left. by rewrite !str_app_nil_l in *.
    + rewrite !str_app_cons in Heq. injection Heq as -> Heq.
      destruct (IH b Heq) as [u [[-> ->]|[-> ->]]]; exists u; [left|right];
        by rewrite str_app_cons.
Qed.

Module route_facts.
Import RouteFactory.

(** No keyword is bound twice when no parameter is among the keywords. *)
Lemma bound_twice_None (params : list string) (keywords : kwargs) :
  bound_twice params keywords = None
  ↔ ∀ k, k ∈ params → dict_get k keywords = None.
Proof.
  induction keywords as [|[k v] keywords IH]; simpl; [done|].
  case_decide as Hk.
  - split; [done|]. intros Hall. specialize (Hall k Hk).
    by rewrite decide_True in Hall.
  - rewrite IH. split; intros Hall k' Hk'.
    + rewrite decide_False by congruence. by apply Hall.
    + specialize (Hall k' Hk'). by rewrite decide_False in Hall by congruence.
Qed.

(** A keyword that names a parameter is found, or one before it is. *)
Lemma bound_twice_Some (params : list string) (keywords : kwargs) (k : string) :
  k ∈ params → is_Some (dict_get k keywords) →
  ∃ param, bound_twice params keywords = Some param ∧ param ∈ params.
Proof.
  intros Hk Hget.
  destruct (bound_twice params keywords) as [param|] eqn:Hb.
  - exists param. split; [done|].
    clear Hget. induction keywords as [|[k' v] keywords IH]; [done|].
    simpl in Hb. case_decide; [congruence|auto].
  - rewrite (proj1 (bound_twice_None _ _) Hb k Hk) in Hget.
    by destruct Hget.
Qed.

(** What a decoration registers when its options bind. *)
Lemma decorate_binds d methods :
  binds (dec_options d) methods →
  decorate d
  = RouterCalled
      {| reg_route := dec_route d;
         reg_methods :=
           resolve_methods (verb_name (dec_verb d))
             (mk_options methods (other_options (dec_options d)));
         reg_others := other_options (dec_options d);
         reg_name := generated_name d;
         reg_callback_id := dec_callback_id d;
         reg_callback := λ args kw, dec_func d args kw |}.
Proof.
  intros [Hb Hm].
  assert (bound_twice ["self"; "route"] (dec_options d) = None) as Hb2.
  { apply bound_twice_None. intros k Hk.
    apply (proj1 (bound_twice_None _ _) Hb).
    rewrite !elem_of_cons in Hk. rewrite !elem_of_cons. tauto. }
  unfold decorate.
  destruct (dec_verb d); simpl;
    unfold options, get, post, put, delete, __wrap_route;
    by rewrite Hb2, Hb, Hm.
Qed.

Lemma resolve_methods_elem method options m :
  m ∈ resolve_methods method options
  ↔ m = method ∨ m ∈ default [] (opt_methods options).
Proof.
  unfold resolve_methods. rewrite elem_of_elements.
  case_decide as Hm.
  - rewrite elem_of_union, elem_of_singleton, elem_of_list_to_set. tauto.
  - rewrite elem_of_list_to_set in Hm.
    rewrite elem_of_list_to_set. split; [by right|]. by intros [->|?].
Qed.

(** Two generated names are the same for different identities only when
    one function name is the other one followed by digits. *)
Lemma generated_name_clash (a b : string) (x y : N) :
  a ++ pretty x = b ++ pretty y → x ≠ y →
  ∃ digits, digits ≠ "" ∧ str_digits digits = true
            ∧ (a = b ++ digits ∨ b = a ++ digits).
Proof.
  intros Heq Hne.
  destruct (str_app_eq_app _ _ _ _ Heq) as [u [[Ha Hy]|[Hb Hx]]];
    exists u.
  - split; [|split; [|by left]].
    + intros ->. rewrite str_app_nil_l in Hy.
      by apply (inj pretty) in Hy.
    + pose proof (pretty_N_digits y) as Hd.
      rewrite Hy, str_digits_app in Hd. by apply andb_true_iff in Hd as [? _].
  - split; [|split; [|by right]].
    + intros ->. rewrite str_app_nil_l in Hx.
      by apply (inj pretty) in Hx.
    + pose proof (pretty_N_digits x) as Hd.
      rewrite Hx, str_digits_app in Hd. by apply andb_true_iff in Hd as [? _].
Qed.

Lemma str_app_not_longer (a u : string) : a = a ++ u → u = "".
Proof.
  intros Heq. rewrite <-(str_app_nil_r a) in Heq at 1.
  by apply (inj (String.app a)) in Heq.
Qed.

End route_facts.

Section route_claims.
Import RouteFactory route_facts.

(** C9, at the input where the code leaves it.  The handlers [h1] and [h]
    are decorated with [get]; their callbacks are two objects, with the
    identities 40000016 and 140000016.  The router is called for both, each
    time with the verb [GET], and both callbacks are handed to it under the
    one identifier [h140000016]: nothing stands between the name of the
    function and the digits of the identity. *)
Theorem C9_two_callbacks_one_name :
  ∃ r1 r2 : registration,
    decorate clash_h1 = RouterCalled r1
    ∧ decorate clash_h = RouterCalled r2
    ∧ reg_route r1 = "/a" ∧ reg_route r2 = "/b"
    ∧ reg_callback_id r1 = 40000016%N
    ∧ reg_callback_id r2 = 140000016%N
    ∧ reg_methods r1 = ["GET"] ∧ reg_methods r2 = ["GET"]
    ∧ reg_name r1 = "h140000016"
    ∧ reg_name r2 = "h140000016".
Proof.
  eexists _, _. split; [reflexivity|]. split; [reflexivity|]. by vm_compute.
Qed.

Example get_keeps_its_verb :
  resolve_methods "GET" (mk_options (Some ["POST"]) []) ≡ₚ ["GET"; "POST"]
  ∧ resolve_methods "GET" (mk_options (Some ["POST"; "GET"]) [])
    ≡ₚ ["GET"; "POST"].
Proof. split; by vm_compute. Qed.

End route_claims.

(** * Further properties *)

(** ** Dictionaries, again *)

Section dict_more.
Context {K V : Type} `{EqDecision K}.
Implicit Types (k : K) (v : V) (d : list (K * V)).

Lemma dict_set_not_nil k v d : dict_set k v d ≠ [].
Proof. destruct d as [|[k' v'] d]; simpl; [done|]. by case_decide. Qed.

Lemma dict_set_keys k v d :
  (dict_set k v d).*1 = if decide (k ∈ d.*1) then d.*1 else (d.*1 ++ [k])%list.
Proof.
  induction d as [|[k' v'] d IH].
  - destruct (decide (k ∈ ([] : list (K * V)).*1)) as [Hin|_]; [|done].
    by apply elem_of_nil in Hin.
  - change (((k', v') :: d).*1) with (k' :: d.*1). simpl dict_set.
    destruct (decide (k' = k)) as [->|Hne].
    + destruct (decide (k ∈ k :: d.*1)) as [_|Hn]; [done|].
      destruct Hn. apply list_elem_of_here.
    + change (((k', v') :: dict_set k v d).*1)
        with (k' :: (dict_set k v d).*1).
      rewrite IH. destruct (decide (k ∈ d.*1)) as [Hin|Hnin].
      * destruct (decide (k ∈ k' :: d.*1)) as [_|Hn]; [done|].
        destruct Hn. by apply list_elem_of_further.
      * destruct (decide (k ∈ k' :: d.*1)) as [Hin|_]; [|done].
        apply elem_of_cons in Hin as [?|?]; congruence.
Qed.

Lemma dict_set_NoDup k v d : NoDup d.*1 → NoDup (dict_set k v d).*1.
Proof.
  intros Hd. rewrite dict_set_keys. case_decide; [done|].
  apply NoDup_app. split; [done|]. split; [|apply NoDup_singleton].
  intros x Hx ->%list_elem_of_singleton. done.
Qed.

Lemma dict_set_elem k v d k' v' :
  (k', v') ∈ dict_set k v d → (k', v') = (k, v) ∨ (k', v') ∈ d.
Proof.
  induction d as [|[k0 v0] d IH]; simpl.
  - intros ->%list_elem_of_singleton. by left.
  - destruct (decide (k0 = k)) as [->|Hne].
    + intros [->|?]%elem_of_cons; [by left|].
      right. by apply list_elem_of_further.
    + intros [->|Hin]%elem_of_cons; [right; apply list_elem_of_here|].
      destruct (IH Hin) as [?|?]; [by left|].
      right. by apply list_elem_of_further.
Qed.

Lemma dict_get_elem k v d : dict_get k d = Some v → (k, v) ∈ d.
Proof.
  induction d as [|[k0 v0] d IH]; simpl; [done|].
  destruct (decide (k0 = k)) as [->|Hne].
  - intros [= ->]. apply list_elem_of_here.
  - intros Hd. apply list_elem_of_further. by apply IH.
Qed.

Lemma dict_get_None_keys k d : dict_get k d = None ↔ k ∉ d.*1.
Proof.
  induction d as [|[k0 v0] d IH]; simpl.
  - split; [intros _; apply not_elem_of_nil|done].
  - destruct (decide (k0 = k)) as [->|Hne].
    + split; [done|]. intros Hn. destruct Hn. apply list_elem_of_here.
    + rewrite IH, not_elem_of_cons.
      split; [intros ?; split; [congruence|done]|by intros [_ ?]].
Qed.

(** With one entry per key, an entry is what the lookup of its key gives. *)
Lemma dict_elem_get k v d : NoDup d.*1 → (k, v) ∈ d → dict_get k d = Some v.
Proof.
  induction d as [|[k0 v0] d IH]; simpl.
  - intros _ Hin. by apply elem_of_nil in Hin.
  - intros [Hk0 Hd]%NoDup_cons [[= -> ->]|Hin]%elem_of_cons.
    + by rewrite decide_True.
    + rewrite decide_False; [by apply IH|].
      intros ->. apply Hk0. by apply (list_elem_of_fmap_2 fst _ (k, v)).
Qed.
End dict_more.

(** ** The validator, again *)

Module validator_more.
Import json_request_required validator_facts.

Implicit Types (obj : list (pykey * pyval)) (errors : list (string * string)).

(** A turn that returns has recorded the failure of its specifier, if any;
    and then the requirement is met exactly when there is no failure. *)
Lemma verify_step_record obj errors errors' spec :
  verify_step obj errors spec = Return errors' →
  errors' = record_turn obj errors spec
  ∧ (requirement_met obj spec = true ↔ failure_record obj spec = None).
Proof.
  unfold verify_step, record_turn, failure_record, requirement_met,
    check_specifier.
  destruct (parse_specifier spec) as [[tn k]|e];
    cbv beta iota delta [mbind outcome_bind]; [|done].
  destruct (dict_get (KStr k) obj) as [v|];
    [|intros [= <-]; split; [done|split; congruence]].
  destruct tn as [t|]; [|intros [= <-]; split; [done|split; congruence]].
  destruct (decide (t = "any"));
    [intros [= <-]; split; [done|split; congruence]|].
  destruct (dict_get t __types) as [ty|]; [|by unfold AssertionError].
  destruct (type_is v ty); intros [= <-]; split; [done|split; congruence..].
Qed.

Lemma verify_step_met obj errors spec :
  requirement_met obj spec = true → verify_step obj errors spec = Return errors.
Proof.
  unfold verify_step, requirement_met, check_specifier.
  destruct (parse_specifier spec) as [[tn k]|e];
    cbv beta iota delta [mbind outcome_bind]; [|done].
  destruct (dict_get (KStr k) obj) as [v|]; [|done].
  destruct tn as [t|]; [|done].
  destruct (decide (t = "any")); [done|].
  destruct (dict_get t __types) as [ty|]; [|done].
  by intros ->.
Qed.

Lemma verify_loop_met obj errors required :
  forallb (requirement_met obj) required = true →
  verify_loop obj errors required = Return errors.
Proof.
  induction required as [|spec required IH]; simpl; [done|].
  intros [Hs Hr]%andb_true_iff. rewrite (verify_step_met _ _ _ Hs). simpl.
  by apply IH.
Qed.

Lemma record_not_nil obj errors spec :
  record_turn obj errors spec = [] →
  errors = [] ∧ failure_record obj spec = None.
Proof.
  unfold record_turn. destruct (failure_record obj spec) as [[k msg]|]; [|done].
  intros Hd. by apply dict_set_not_nil in Hd.
Qed.

Lemma verify_loop_nil obj errors required :
  verify_loop obj errors required = Return [] →
  errors = [] ∧ forallb (requirement_met obj) required = true.
Proof.
  revert errors. induction required as [|spec required IH]; intros errors; simpl.
  - by intros [= ->].
  - destruct (verify_step obj errors spec) as [errors1|e] eqn:Hstep;
      simpl; [|done].
    intros [-> Hr]%IH. apply verify_step_record in Hstep as [Hrec Hmet].
    symmetry in Hrec. apply record_not_nil in Hrec as [-> Hnone].
    split; [done|]. apply andb_true_iff. split; [by apply Hmet|done].
Qed.

(** The errors a validation returns are the records of its turns, in turn. *)
Lemma verify_loop_records obj errors errors' required :
  verify_loop obj errors required = Return errors' →
  errors' = foldl (record_turn obj) errors required.
Proof.
  revert errors. induction required as [|spec required IH]; intros errors; simpl.
  - by intros [= ->].
  - destruct (verify_step obj errors spec) as [errors1|e] eqn:Hstep;
      simpl; [|done].
    apply verify_step_record in Hstep as [-> _]. apply IH.
Qed.

Lemma records_NoDup obj errors required :
  NoDup errors.*1 → NoDup (foldl (record_turn obj) errors required).*1.
Proof.
  revert errors. induction required as [|spec required IH]; intros errors Hd;
    simpl; [done|].
  apply IH. unfold record_turn.
  destruct (failure_record obj spec) as [[k msg]|]; [|done].
  by apply dict_set_NoDup.
Qed.

Lemma records_keys obj errors required k :
  k ∈ (foldl (record_turn obj) errors required).*1
  ↔ k ∈ errors.*1
    ∨ ∃ spec msg, spec ∈ required ∧ failure_record obj spec = Some (k, msg).
Proof.
  revert errors. induction required as [|spec required IH]; intros errors; simpl.
  - split; [by left|]. intros [?|(spec & msg & Hin & _)]; [done|].
    by apply elem_of_nil in Hin.
  - rewrite IH. unfold record_turn at 1.
    destruct (failure_record obj spec) as [[k0 msg0]|] eqn:Hf.
    + rewrite dict_set_keys. split.
      * intros [Hk|(spec' & msg & Hin & Hrec)].
        -- destruct (decide (k0 ∈ errors.*1)); [by left|].
           apply elem_of_app in Hk as [? | ->%list_elem_of_singleton];
             [by left|].
           right. exists spec, msg0. split; [apply list_elem_of_here|done].
        -- right. exists spec', msg. split; [by apply list_elem_of_further|done].
      * intros [Hk|(spec' & msg & Hin & Hrec)].
        -- left. destruct (decide (k0 ∈ errors.*1)); [done|].
           apply elem_of_app. by left.
        -- apply elem_of_cons in Hin as [-> | Hin].
           ++ left. rewrite Hf in Hrec. injection Hrec as -> _.
              destruct (decide (k ∈ errors.*1)); [done|].
              apply elem_of_app. right. apply list_elem_of_here.
           ++ right. by exists spec', msg.
    + split.
      * intros [?|(spec' & msg & Hin & Hrec)]; [by left|].
        right. exists spec', msg. split; [by apply list_elem_of_further|done].
      * intros [?|(spec' & msg & Hin & Hrec)]; [by left|].
        apply elem_of_cons in Hin as [-> | Hin]; [congruence|].
        right. by exists spec', msg.
Qed.

Lemma records_elem obj errors required k msg :
  (k, msg) ∈ foldl (record_turn obj) errors required →
  (k, msg) ∈ errors
  ∨ ∃ spec, spec ∈ required ∧ failure_record obj spec = Some (k, msg).
Proof.
  revert errors. induction required as [|spec required IH]; intros errors; simpl.
  - by left.
  - intros [Hin|(spec' & Hin & Hrec)]%IH.
    + unfold record_turn in Hin.
      destruct (failure_record obj spec) as [[k0 msg0]|] eqn:Hf; [|by left].
      apply dict_set_elem in Hin as [[= -> ->]|?]; [|by left].
      right. exists spec. split; [apply list_elem_of_here|done].
    + right. exists spec'. split; [by apply list_elem_of_further|done].
Qed.

(** A failure record says ["missing"] exactly for a key the body lacks. *)
Lemma failure_record_missing obj spec k msg :
  failure_record obj spec = Some (k, msg) →
  (dict_get (KStr k) obj = None ∧ msg = "missing")
  ∨ (∃ t v ty, dict_get (KStr k) obj = Some v
               ∧ parse_specifier spec = Return (Some t, k)
               ∧ dict_get t __types = Some ty ∧ type_is v ty = false
               ∧ msg = "is not of type " ++ t).
Proof.
  unfold failure_record.
  destruct (parse_specifier spec) as [[tn k0]|e]; [|done].
  destruct (dict_get (KStr k0) obj) as [v|] eqn:Hk.
  - destruct tn as [t|]; [|done].
    destruct (decide (t = "any")); [done|].
    destruct (dict_get t __types) as [ty|] eqn:Ht; [|done].
    destruct (type_is v ty) eqn:Hty; [done|].
    intros [= <- <-]. right. by exists t, v, ty.
  - intros [= <- <-]. by left.
Qed.

End validator_more.

Section validator_extras.
Import json_request_required validator_facts validator_more.

Implicit Types (obj : list (pykey * pyval)) (errors : list (string * string)).

Lemma failure_record_key obj spec k msg :
  failure_record obj spec = Some (k, msg) → specifier_key spec = Some k.
Proof.
  unfold failure_record, specifier_key.
  destruct (parse_specifier spec) as [[tn k0]|e]; [|done].
  destruct (dict_get (KStr k0) obj) as [v|]; [|by intros [= <- _]].
  destruct tn as [t|]; [|done].
  destruct (decide (t = "any")); [done|].
  destruct (dict_get t __types) as [ty|]; [|done].
  destruct (type_is v ty); [done|]. by intros [= <- _].
Qed.

Lemma failure_record_of_key obj spec k :
  specifier_key spec = Some k → failure_record obj spec ≠ None →
  ∃ msg, failure_record obj spec = Some (k, msg).
Proof.
  intros Hk Hf. destruct (failure_record obj spec) as [[k0 msg]|] eqn:Hrec;
    [|done].
  apply failure_record_key in Hrec as Hk0. rewrite Hk in Hk0.
  injection Hk0 as ->. by exists msg.
Qed.

(** In a validation that returns, every turn returned. *)
Lemma verify_loop_turns obj errors errors' required :
  verify_loop obj errors required = Return errors' →
  Forall (λ spec, requirement_met obj spec = true
                  ↔ failure_record obj spec = None) required.
Proof.
  revert errors. induction required as [|spec required IH]; intros errors;
    simpl; [by constructor|].
  destruct (verify_step obj errors spec) as [errors1|e] eqn:Hstep;
    simpl; [|done].
  intros Hloop. constructor; [|by eapply IH].
  by apply verify_step_record in Hstep as [_ ?].
Qed.

(** X1.  The validation returns no error exactly when the body meets every
    requirement: each specifier parses, its key is in the body, and the value
    has the class its type name stands for. *)
Theorem X1_passes_iff_all_met obj (required : list string) :
  verify_json obj required = Return []
  ↔ forallb (requirement_met obj) required = true.
Proof.
  unfold verify_json. split.
  - by intros [_ ?]%verify_loop_nil.
  - apply verify_loop_met.
Qed.

(** X2.  When the validation returns, the keys of its errors are the keys of
    the requirements the body does not meet: no failure is left out, and no
    key is reported that no failing specifier is about. *)
Theorem X2_error_keys_are_the_unmet obj (required : list string) errors :
  verify_json obj required = Return errors →
  ∀ k : string,
    k ∈ errors.*1
    ↔ ∃ spec, spec ∈ required ∧ specifier_key spec = Some k
              ∧ requirement_met obj spec = false.
Proof.
  unfold verify_json. intros Hv k.
  pose proof (verify_loop_turns _ _ _ _ Hv) as Hturns.
  rewrite Forall_forall in Hturns.
  apply verify_loop_records in Hv as ->. rewrite records_keys. split.
  - intros [Hk|(spec & msg & Hin & Hrec)]; [by apply elem_of_nil in Hk|].
    exists spec. split; [done|]. split; [by eapply failure_record_key|].
    apply not_true_is_false. intros Hmet%(Hturns _ Hin). congruence.
  - intros (spec & Hin & Hkey & Hmet). right.
    destruct (failure_record_of_key obj spec k Hkey) as [msg Hrec].
    { intros Hnone%(Hturns _ Hin). congruence. }
    by exists spec, msg.
Qed.

Lemma X2_error_keys_are_the_unmet_witness :
  "age" ∈ [("name", "missing"); ("age", "is not of type int")].*1
  ↔ ∃ spec, spec ∈ ["str:name"; "id"; "INT:age"]
            ∧ specifier_key spec = Some "age"
            ∧ requirement_met [(KStr "id", PInt 7); (KStr "age", PStr "12")]
                spec = false.
Proof.
  exact (X2_error_keys_are_the_unmet
           [(KStr "id", PInt 7); (KStr "age", PStr "12")]
           ["str:name"; "id"; "INT:age"] _ eq_refl "age").
Defined.

(** X3.  When the validation returns, its errors hold one entry per key, and
    an entry says ["missing"] for a key the body lacks and, for a key the
    body has, ["is not of type <tag>"] with the type name of a specifier of
    that key whose class the value is not of. *)
Theorem X3_error_entries obj (required : list string) errors :
  verify_json obj required = Return errors →
  NoDup errors.*1
  ∧ ∀ k msg : string,
      (k, msg) ∈ errors →
      (dict_get (KStr k) obj = None ∧ msg = "missing")
      ∨ (∃ (spec t : string) (v : pyval) (ty : table_value),
           spec ∈ required
           ∧ parse_specifier spec = Return (Some t, k)
           ∧ dict_get (KStr k) obj = Some v
           ∧ dict_get t __types = Some ty ∧ type_is v ty = false
           ∧ msg = "is not of type " ++ t).
Proof.
  unfold verify_json. intros ->%verify_loop_records. split.
  - apply records_NoDup. constructor.
  - intros k msg [Hin|(spec & Hin & Hrec)]%records_elem;
      [by apply elem_of_nil in Hin|].
    apply failure_record_missing in Hrec
      as [?|(t & v & ty & ? & ? & ? & ? & ?)]; [by left|].
    right. by exists spec, t, v, ty.
Qed.

Lemma X3_error_entries_witness :
  NoDup [("name", "missing"); ("age", "is not of type str")].*1
  ∧ ∀ k msg : string,
      (k, msg) ∈ [("name", "missing"); ("age", "is not of type str")] →
      (dict_get (KStr k) [(KStr "age", PFloat (FFinite "1.5"))] = None
       ∧ msg = "missing")
      ∨ (∃ (spec t : string) (v : pyval) (ty : table_value),
           spec ∈ ["name"; "int:age"; "str:age"]
           ∧ parse_specifier spec = Return (Some t, k)
           ∧ dict_get (KStr k) [(KStr "age", PFloat (FFinite "1.5"))] = Some v
           ∧ dict_get t __types = Some ty ∧ type_is v ty = false
           ∧ msg = "is not of type " ++ t).
Proof.
  exact (X3_error_entries [(KStr "age", PFloat (FFinite "1.5"))]
           ["name"; "int:age"; "str:age"] _ eq_refl).
Defined.

End validator_extras.

(** ** Specifiers *)

Lemma chr_lower_idemp c : chr_lower (chr_lower c) = chr_lower c.
Proof. by destruct c as [[] [] [] [] [] [] [] []]. Qed.

Lemma chr_lower_colon c :
  bool_decide (chr_lower c = ":"%char) = bool_decide (c = ":"%char).
Proof. by destruct c as [[] [] [] [] [] [] [] []]. Qed.

Lemma str_lower_idemp s : str_lower (str_lower s) = str_lower s.
Proof.
  induction s as [|c s IH]; simpl; [done|]. by rewrite chr_lower_idemp, IH.
Qed.

Lemma str_lower_colon s :
  str_contains ":" (str_lower s) = str_contains ":" s.
Proof.
  induction s as [|c s IH]; simpl; [done|].
  pose proof (chr_lower_colon c) as Hc. rewrite IH.
  destruct (decide (chr_lower c = ":"%char)) as [Hl|Hl],
           (decide (c = ":"%char)) as [Hu|Hu]; try done.
  - by rewrite bool_decide_eq_true_2, bool_decide_eq_false_2 in Hc.
  - by rewrite bool_decide_eq_false_2, bool_decide_eq_true_2 in Hc.
Qed.

(** A split in two pieces comes from a string with one separator. *)
Lemma str_split_two c s a b :
  str_split c s = [a; b] →
  s = a ++ String c b ∧ str_contains c a = false ∧ str_contains c b = false.
Proof.
  revert a. induction s as [|c' s IH]; intros a; simpl; [done|].
  destruct (decide (c' = c)) as [->|Hne].
  - intros [= <- Hs].
    assert (str_contains c s = false) as Hnone.
    { apply str_contains_count. pose proof (str_split_length c s) as Hlen.
      rewrite Hs in Hlen. simpl in Hlen. lia. }
    rewrite (str_split_none _ _ Hnone) in Hs. injection Hs as ->. done.
  - destruct (str_split c s) as [|p ps] eqn:Hs; [done|].
    intros [= <- ->]. destruct (IH p eq_refl) as (-> & Hp & Hb).
    split; [done|]. split; [|done]. simpl. by rewrite decide_False.
Qed.

Section specifier_extras.
Import json_request_required validator_facts.

Implicit Types (obj : list (pykey * pyval)) (errors : list (string * string)).

(** Two specifiers that parse alike give the same validation. *)
Lemma verify_json_parse_alike obj (pre post : list string) (s s' : string) :
  parse_specifier s = parse_specifier s' →
  verify_json obj (pre ++ s :: post) = verify_json obj (pre ++ s' :: post).
Proof.
  intros Hp. unfold verify_json. rewrite !verify_loop_app.
  destruct (verify_loop obj [] pre) as [errors|e]; [|done].
  change (verify_loop obj errors (s :: post)
          = verify_loop obj errors (s' :: post)).
  simpl. unfold verify_step. by rewrite Hp.
Qed.

(** X4.  The type name of a specifier is read without regard to case: the
    validation is the same with the type name written in lower case. *)
Theorem X4_type_name_ignores_case obj (pre post : list string) (t k : string) :
  str_contains ":" t = false → str_contains ":" k = false →
  verify_json obj (pre ++ (t ++ ":" ++ k) :: post)
  = verify_json obj (pre ++ (str_lower t ++ ":" ++ k) :: post).
Proof.
  intros Ht Hk. apply verify_json_parse_alike.
  change (parse_specifier (t ++ String ":" k)
          = parse_specifier (str_lower t ++ String ":" k)).
  rewrite !parse_typed; [|by rewrite ?str_lower_colon..].
  by rewrite str_lower_idemp.
Qed.

Lemma X4_type_name_ignores_case_witness :
  verify_json [(KStr "age", PStr "12")] ["name"; "INT:age"]
  = verify_json [(KStr "age", PStr "12")] ["name"; "int:age"].
Proof.
  exact (X4_type_name_ignores_case [(KStr "age", PStr "12")]
           ["name"] [] "INT" "age" eq_refl eq_refl).
Defined.

(** X5.  A bare key and the key with the type name ["any"] are the same
    requirement: the validation is the same with one for the other. *)
Theorem X5_bare_key_is_any obj (pre post : list string) (k : string) :
  str_contains ":" k = false →
  verify_json obj (pre ++ k :: post)
  = verify_json obj (pre ++ ("any:" ++ k) :: post).
Proof.
  intros Hk. unfold verify_json. rewrite !verify_loop_app.
  destruct (verify_loop obj [] pre) as [errors|e]; [|done].
  change (verify_loop obj errors (k :: post)
          = verify_loop obj errors (("any" ++ String ":" k) :: post)).
  simpl. unfold verify_step.
  rewrite (parse_bare _ Hk), (parse_typed "any" k eq_refl Hk).
  cbv beta iota delta [mbind outcome_bind].
  by rewrite check_any.
Qed.

Lemma X5_bare_key_is_any_witness :
  verify_json [(KStr "age", PNone)] ["int:id"; "age"]
  = verify_json [(KStr "age", PNone)] ["int:id"; "any:age"].
Proof.
  exact (X5_bare_key_is_any [(KStr "age", PNone)] ["int:id"] [] "age" eq_refl).
Defined.

(** X6.  What a specifier parses to tells the specifier: a key alone is the
    specifier itself, and a type name with a key comes from a specifier made
    of a type name that is the given one in lower case, one colon, and the
    key.  A key that is parsed never holds a colon. *)
Theorem X6_parse_inverts (spec : string) (tn : option string) (k : string) :
  parse_specifier spec = Return (tn, k) →
  str_contains ":" k = false
  ∧ match tn with
    | None => spec = k
    | Some t =>
        ∃ t0 : string,
          spec = t0 ++ ":" ++ k ∧ t = str_lower t0
          ∧ str_contains ":" t0 = false
    end.
Proof.
  unfold parse_specifier. destruct (str_contains ":" spec) eqn:Hc.
  - destruct (str_split ":" spec) as [|a [|b [|c l]]] eqn:Hs; try done.
    intros [= <- <-]. apply str_split_two in Hs as (-> & Ha & Hb).
    split; [done|]. by exists a.
  - by intros [= <- <-].
Qed.

Lemma X6_parse_inverts_witness :
  str_contains ":" "age" = false
  ∧ ∃ t0 : string,
      "Int:age" = t0 ++ ":" ++ "age" ∧ "int" = str_lower t0
      ∧ str_contains ":" t0 = false.
Proof.
  exact (X6_parse_inverts "Int:age" (Some "int") "age" eq_refl).
Defined.

End specifier_extras.

(** ** The decorator of the validator *)


Section decorator_extras.
Import json_request_required validator_facts validator_more validator.

Implicit Types (obj : list (pykey * pyval)) (errors : list (string * string)).

Lemma verify_spread obj (specs : list string) :
  __verify_json (ArgStr <$> specs) obj = verify_json obj specs.
Proof.
  assert (specifier_str <$> (ArgStr <$> specs) = specs) as Hstr.
  { induction specs as [|s' specs IH]; [done|].
    rewrite !fmap_cons. by rewrite IH. }
  destruct specs as [|s specs]; [reflexivity|].
  change (verify_json obj (specifier_str <$> (ArgStr <$> s :: specs))
          = verify_json obj (s :: specs)).
  by rewrite Hstr.
Qed.

Lemma call_on_mapping verify_other required func req d args kw :
  request.json req = request.JsonProperty (Return (PDict d))
  ∨ request.json req = request.JsonMethod (Return (PDict d)) →
  dict_get "body" kw = None →
  __call__ verify_other required func req args kw
  = (result ← __verify_json required d;
     match result with
     | [] => func (PDict d :: args) kw
     | _ =>
         AssertionError
           ("Some keys did not meet the requirements: "
            ++ py_repr_dict result)
     end).
Proof.
  intros Hreq Hkw. unfold __call__.
  rewrite (json_request_mapping _ _ d) by done. by rewrite Hkw.
Qed.

(** The validation raises nothing but the two errors of its own. *)
Lemma verify_loop_raises obj errors required e :
  verify_loop obj errors required = Raise e →
  exc_class e = "AssertionError" ∨ exc_class e = "ValueError".
Proof.
  revert errors. induction required as [|spec required IH]; intros errors;
    simpl; [done|].
  destruct (verify_step obj errors spec) as [errors1|e1] eqn:Hstep; simpl.
  - apply IH.
  - intros [= <-]. revert Hstep.
    unfold verify_step, parse_specifier, check_specifier.
    destruct (str_contains ":" spec).
    + destruct (str_split ":" spec) as [|a [|b [|c l]]];
        cbv beta iota delta [mbind outcome_bind ValueError];
        try (intros [= <-]; by right).
      destruct (dict_get (KStr b) obj) as [v|]; [|done].
      destruct (decide (str_lower a = "any")); [done|].
      destruct (dict_get (str_lower a) __types) as [ty|].
      * by destruct (type_is v ty).
      * intros [= <-]. by left.
    + cbv beta iota delta [mbind outcome_bind].
      by destruct (dict_get (KStr spec) obj).
Qed.

(** X7.  For a request whose JSON body is a mapping that meets every
    requirement, and a call with no keyword argument named [body], the
    decorated endpoint is the endpoint called with the mapping before the
    other arguments: the validator adds and changes nothing. *)
Theorem X7_valid_body_reaches_endpoint
    (verify_other : list string → pyval → outcome (list (string * string)))
    (specs : list string) (func : callable) (req : request.t)
    (d : list (pykey * pyval)) (args : list pyval) (kw : kwargs) :
  request.json req = request.JsonProperty (Return (PDict d))
  ∨ request.json req = request.JsonMethod (Return (PDict d)) →
  dict_get "body" kw = None →
  forallb (requirement_met d) specs = true →
  __call__ verify_other (ArgStr <$> specs) func req args kw
  = func (PDict d :: args) kw.
Proof.
  intros Hreq Hkw Hmet. rewrite (call_on_mapping _ _ _ _ d) by done.
  rewrite verify_spread. unfold verify_json.
  by rewrite (verify_loop_met _ _ _ Hmet).
Qed.

Lemma X7_valid_body_reaches_endpoint_witness :
  __call__ (λ _ _, Return []) (ArgStr <$> ["str:name"; "int:age"; "tags"])
    (λ args _, Return (PList args)) ann_request [PInt 1] [("id", PInt 7)]
  = Return (PList [PDict ann_body; PInt 1]).
Proof.
  exact (X7_valid_body_reaches_endpoint (λ _ _, Return [])
           ["str:name"; "int:age"; "tags"] (λ args _, Return (PList args))
           ann_request ann_body [PInt 1] [("id", PInt 7)]
           (or_introl eq_refl) eq_refl eq_refl).
Defined.

(** X8.  For a request whose JSON body is a mapping that does not meet some
    requirement, and a call with no keyword argument named [body], the
    decorated endpoint raises an [AssertionError] or a [ValueError], the
    same whatever the endpoint is: the endpoint is not called. *)
Theorem X8_invalid_body_stops_before_endpoint
    (verify_other : list string → pyval → outcome (list (string * string)))
    (specs : list string) (req : request.t)
    (d : list (pykey * pyval)) (args : list pyval) (kw : kwargs) :
  request.json req = request.JsonProperty (Return (PDict d))
  ∨ request.json req = request.JsonMethod (Return (PDict d)) →
  dict_get "body" kw = None →
  forallb (requirement_met d) specs = false →
  ∃ e : exn,
    (exc_class e = "AssertionError" ∨ exc_class e = "ValueError")
    ∧ ∀ func : callable,
        __call__ verify_other (ArgStr <$> specs) func req args kw = Raise e.
Proof.
  intros Hreq Hkw Hmet.
  destruct (verify_json d specs) as [errors|e] eqn:Hv.
  - destruct errors as [|entry errors].
    { apply verify_loop_nil in Hv as [_ ?]. congruence. }
    exists (mk_exn "AssertionError"
              ("Some keys did not meet the requirements: "
               ++ py_repr_dict (entry :: errors))).
    split; [by left|]. intros func.
    rewrite (call_on_mapping _ _ _ _ d) by done.
    by rewrite verify_spread, Hv.
  - exists e. split; [by eapply verify_loop_raises|]. intros func.
    rewrite (call_on_mapping _ _ _ _ d) by done.
    by rewrite verify_spread, Hv.
Qed.

Lemma X8_invalid_body_stops_before_endpoint_witness :
  ∃ e : exn,
    (exc_class e = "AssertionError" ∨ exc_class e = "ValueError")
    ∧ ∀ func : callable,
        __call__ (λ _ _, Return []) (ArgStr <$> ["str:name"; "email"])
          func ann_request [] [("id", PInt 7)]
        = Raise e.
Proof.
  exact (X8_invalid_body_stops_before_endpoint (λ _ _, Return [])
           ["str:name"; "email"] ann_request ann_body [] [("id", PInt 7)]
           (or_introl eq_refl) eq_refl eq_refl).
Defined.

End decorator_extras.

Section decorator_message.
Import json_request_required validator_facts validator_more validator.



End decorator_message.

Section validator_order.
Import json_request_required validator_facts validator_more.

Implicit Types (obj : list (pykey * pyval)).

Lemma forallb_Permutation {A} (p : A → bool) (l l' : list A) :
  l ≡ₚ l' → forallb p l = forallb p l'.
Proof.
  induction 1 as [|x l l' _ IH|x y l|l1 l2 l3 _ IH1 _ IH2]; simpl.
  - done.
  - by rewrite IH.
  - by rewrite !andb_assoc, (andb_comm (p y)).
  - by rewrite IH1.
Qed.

(** X10.  Whether the validation passes does not depend on the order of the
    specifiers. *)
Theorem X10_pass_is_order_free obj (required required' : list string) :
  required ≡ₚ required' →
  verify_json obj required = Return []
  ↔ verify_json obj required' = Return [].
Proof.
  intros Hperm. unfold verify_json. split.
  - intros [_ Hmet]%verify_loop_nil. apply verify_loop_met.
    by rewrite <-(forallb_Permutation _ _ _ Hperm).
  - intros [_ Hmet]%verify_loop_nil. apply verify_loop_met.
    by rewrite (forallb_Permutation _ _ _ Hperm).
Qed.

Lemma X10_pass_is_order_free_witness :
  verify_json ann_body ["str:name"; "int:age"] = Return []
  ↔ verify_json ann_body ["int:age"; "str:name"] = Return [].
Proof.
  exact (X10_pass_is_order_free ann_body ["str:name"; "int:age"]
           ["int:age"; "str:name"] (perm_swap _ _ _)).
Defined.

Lemma verify_step_other_key obj errors spec k v :
  specifier_key spec ≠ Some k →
  verify_step (dict_set (KStr k) v obj) errors spec
  = verify_step obj errors spec.
Proof.
  unfold specifier_key, verify_step, check_specifier.
  destruct (parse_specifier spec) as [[tn k0]|e]; [|done].
  intros Hne. cbv beta iota delta [mbind outcome_bind].
  rewrite dict_get_set_ne; [done|]. congruence.
Qed.

(** X11.  A key of the body that no specifier is about does not count: the
    validation is the same with the key set to any value. *)
Theorem X11_other_keys_ignored obj (required : list string) (k : string)
    (v : pyval) :
  Forall (λ spec, specifier_key spec ≠ Some k) required →
  verify_json (dict_set (KStr k) v obj) required = verify_json obj required.
Proof.
  unfold verify_json. intros Hall. generalize (@nil (string * string)).
  induction Hall as [|spec required Hspec _ IH]; intros errors; simpl; [done|].
  rewrite (verify_step_other_key _ _ _ _ _ Hspec).
  destruct (verify_step obj errors spec); simpl; [apply IH|done].
Qed.

Lemma X11_other_keys_ignored_witness :
  verify_json (dict_set (KStr "note") (PObject "set") ann_body)
    ["str:name"; "int:age"; "email"]
  = verify_json ann_body ["str:name"; "int:age"; "email"].
Proof.
  apply (X11_other_keys_ignored ann_body ["str:name"; "int:age"; "email"]
           "note" (PObject "set")).
  repeat constructor; vm_compute; discriminate.
Defined.

End validator_order.

(** ** The extractors and the guard, again *)

(** X12.  The JSON-body extractor either calls the endpoint, once, with a
    body that is not [None] before the arguments it was given, or raises an
    exception that does not depend on the endpoint. *)
Theorem X12_json_request_calls_or_raises
    (req : request.t) (args : list pyval) (kw : kwargs) :
  (∃ body : pyval,
     body ≠ PNone
     ∧ ∀ func : callable,
         json_request func req args kw = func (body :: args) kw)
  ∨ (∃ e : exn, ∀ func : callable, json_request func req args kw = Raise e).
Proof.
  unfold json_request.
  destruct (request.json req) as [[v|e]|[v|e]];
    try (right; by exists e).
  - destruct v; try (right; by eexists).
    left. eexists. split; [|done]. done.
  - destruct v; try (left; eexists; split; [|done]; done).
    right. by eexists.
Qed.


Section guard_extras.
Variable traceback_of : exn → traceback.
Variable other_status : pyval → outcome pyval.

Lemma catch_returns (func : callable) args kw :
  ∃ v, catch traceback_of func args kw = Return v.
Proof. unfold catch. destruct (func args kw); by eexists. Qed.

(** X14.  The guarded endpoint never raises, and guarding it again changes
    nothing. *)
Theorem X14_catch_total_and_idempotent
    (func : callable) (args : list pyval) (kw : kwargs) :
  (∃ v : pyval, catch traceback_of func args kw = Return v)
  ∧ catch traceback_of (catch traceback_of func) args kw
    = catch traceback_of func args kw.
Proof.
  split; [apply catch_returns|].
  destruct (catch_returns func args kw) as [v Hv].
  unfold catch at 1. by rewrite Hv.
Qed.

(** X15.  With the serializer outside the guard, a failure of the endpoint
    is answered by a response of status 500 whose body is the traceback as
    one JSON string. *)
Theorem X15_serialized_guard
    (func : callable) (args : list pyval) (kw : kwargs) (e : exn) :
  func args kw = Raise e →
  json_response other_status (catch traceback_of func) args kw
  = Return (PResponse
              (json.encode_basestring_ascii (format_exc traceback_of e))
              (PInt 500) "application/json").
Proof.
  intros He. rewrite json_response_eq. unfold catch. by rewrite He.
Qed.

(** X16.  With the guard outside the serializer, nothing is raised; a
    payload the encoder refuses is answered by the pair of a traceback that
    names [TypeError], and 500. *)
Theorem X16_guarded_serializer
    (func : callable) (args : list pyval) (kw : kwargs) :
  (∃ v : pyval,
     catch traceback_of (json_response other_status func) args kw = Return v)
  ∧ ∀ result : pyval,
      func args kw = Return result →
      json_typed (iso_strings (normalized result).1) = false →
      ∃ text : string,
        catch traceback_of (json_response other_status func) args kw
        = Return (PTuple [PStr text; PInt 500])
        ∧ is_substring "TypeError" text.
Proof.
  split; [apply catch_returns|].
  intros result Hr Hty. unfold catch. rewrite json_response_eq, Hr.
  cbv beta iota delta [mbind outcome_bind]. unfold respond.
  pose proof (dumps_standard_decided (iso_strings (normalized result).1)) as Hd.
  unfold decided_by in Hd. rewrite <-dumps_iso_strings in Hd.
  destruct (json.dumps __JSONEncoder.default (normalized result).1)
    as [body|e]; [congruence|].
  cbv beta iota delta [mbind outcome_bind].
  destruct Hd as [_ Hcls]. eexists. split; [done|].
  rewrite <-Hcls. apply format_exc_names_class.
Qed.

End guard_extras.

Lemma X15_serialized_guard_witness :
  json_response refuse_status
    (catch script_traceback (λ _ _, Raise (mk_exn "KeyError" "'name'"))) [] []
  = Return (PResponse
              (json.encode_basestring_ascii
                 (format_exc script_traceback (mk_exn "KeyError" "'name'")))
              (PInt 500) "application/json").
Proof.
  exact (X15_serialized_guard script_traceback refuse_status
           (λ _ _, Raise (mk_exn "KeyError" "'name'")) [] [] _ eq_refl).
Defined.

Lemma X16_guarded_serializer_witness :
  ∃ text : string,
    catch script_traceback
      (json_response refuse_status (λ _ _, Return (PObject "set"))) [] []
    = Return (PTuple [PStr text; PInt 500])
    ∧ is_substring "TypeError" text.
Proof.
  exact (proj2 (X16_guarded_serializer script_traceback refuse_status
                  (λ _ _, Return (PObject "set")) [] [])
           (PObject "set") eq_refl eq_refl).
Defined.

(** X17.  The serializer cannot be applied twice: whenever the serialized
    endpoint returns, it returns a response, and the endpoint serialized
    again raises the [TypeError] of the encoder on that response. *)
Theorem X17_serializer_twice
    (other_status : pyval → outcome pyval)
    (func : callable) (args : list pyval) (kw : kwargs) (r : pyval) :
  json_response other_status func args kw = Return r →
  type_of r = TResponse
  ∧ json_response other_status (json_response other_status func) args kw
    = TypeError "Object of type Response is not JSON serializable".
Proof.
  intros Hr. assert (type_of r = TResponse) as Hty.
  { rewrite json_response_eq in Hr.
    destruct (func args kw) as [result|e]; [|done].
    cbv beta iota delta [mbind outcome_bind] in Hr.
    unfold respond, Response in Hr.
    destruct (json.dumps _ _) as [body|]; [|done].
    cbv beta iota delta [mbind outcome_bind] in Hr.
    destruct (match (normalized result).2 with
              | PNone => _
              | _ => _
              end) as [status|]; [|done].
    by injection Hr as <-. }
  split; [done|].
  rewrite (json_response_eq _ (json_response other_status func)), Hr.
  by destruct r.
Qed.

Lemma X17_serializer_twice_witness :
  type_of (PResponse "[1, 2]" (PInt 201) "application/json") = TResponse
  ∧ json_response refuse_status
      (json_response refuse_status
         (λ _ _, Return (PTuple [PList [PInt 1; PInt 2]; PInt 201]))) [] []
    = TypeError "Object of type Response is not JSON serializable".
Proof.
  exact (X17_serializer_twice refuse_status
           (λ _ _, Return (PTuple [PList [PInt 1; PInt 2]; PInt 201]))
           [] [] _ eq_refl).
Defined.

(** ** The route factory and the encoder, again *)

Lemma pretty_N_go_not_empty (x : N) (s : string) :
  s ≠ "" → pretty_N_go x s ≠ "".
Proof.
  revert s. induction (N.lt_wf_0 x) as [x _ IH]; intros s Hs.
  destruct (decide (x = 0%N)) as [->|Hx]; [by rewrite pretty_N_go_0|].
  rewrite pretty_N_go_step by lia. apply IH; [apply N.div_lt; lia|done].
Qed.

Lemma pretty_N_not_empty (x : N) : pretty x ≠ "".
Proof.
  unfold pretty, pretty_N. case_decide as Hx; [done|].
  rewrite pretty_N_go_step by lia. by apply pretty_N_go_not_empty.
Qed.

Section route_extras.
Import RouteFactory route_facts.

(** X18.  The verbs a verb method registers are the verb of the method and
    the verbs of the [methods] option, each one once, in some order: a verb
    the caller repeats, or names along with the method, is not registered
    twice. *)
Theorem X18_verbs_once (method : string) (options : route_options) :
  resolve_methods method options
  ≡ₚ remove_dups (method :: default [] (opt_methods options)).
Proof.
  apply NoDup_Permutation.
  - unfold resolve_methods. apply NoDup_elements.
  - apply NoDup_remove_dups.
  - intros m. rewrite resolve_methods_elem, elem_of_remove_dups, elem_of_cons.
    done.
Qed.

(** The options bind when no keyword is named as a parameter and [methods]
    is not given, or is a list of strings. *)
Lemma binds_intro (options : kwargs) :
  (∀ k, k ∈ ["self"; "route"; "method"] → dict_get k options = None) →
  (dict_get "methods" options = None → binds options None)
  ∧ (∀ verbs : list string,
       dict_get "methods" options = Some (PList (PStr <$> verbs)) →
       binds options (Some verbs)).
Proof.
  intros Hkeys. apply bound_twice_None in Hkeys. split.
  - intros Hm. split; [done|]. unfold read_methods. by rewrite Hm.
  - intros verbs Hm. split; [done|]. unfold read_methods. rewrite Hm.
    assert (as_strings (PStr <$> verbs) = Some verbs) as ->; [|done].
    clear Hm. unfold as_strings. induction verbs as [|v verbs IH]; [done|].
    rewrite fmap_cons. simpl. by rewrite IH.
Qed.

Lemma bound_twice_route (options : kwargs) :
  bound_twice ["self"; "route"; "method"] options = None →
  bound_twice ["self"; "route"] options = None.
Proof.
  rewrite !bound_twice_None. intros Hall k Hk. apply Hall.
  rewrite !elem_of_cons in Hk. rewrite !elem_of_cons. tauto.
Qed.

(** X19.  A decoration whose options bind calls the router with one
    registration.  The name its callback is registered under is the name of
    the function followed by one digit or more, so it is never the name of
    the function itself; and the callback registered answers as the
    function does. *)
Theorem X19_registered_name_is_new
    (d : decoration) (methods : option (list string)) :
  binds (dec_options d) methods →
  ∃ (r : registration) (digits : string),
    decorate d = RouterCalled r
    ∧ reg_name r = dec_func_name d ++ digits
    ∧ digits ≠ "" ∧ str_digits digits = true
    ∧ reg_name r ≠ dec_func_name d
    ∧ ∀ args kw, reg_callback r args kw = dec_func d args kw.
Proof.
  intros Hb. eexists _, (pretty (dec_callback_id d)).
  split; [by apply decorate_binds|]. simpl.
  split; [done|]. split; [apply pretty_N_not_empty|].
  split; [apply pretty_N_digits|]. split; [|done].
  unfold generated_name. intros Heq. symmetry in Heq.
  apply str_app_not_longer in Heq. by apply pretty_N_not_empty in Heq.
Qed.

Lemma X19_registered_name_is_new_witness :
  ∃ (r : registration) (digits : string),
    decorate index_a = RouterCalled r
    ∧ reg_name r = "index" ++ digits
    ∧ digits ≠ "" ∧ str_digits digits = true
    ∧ reg_name r ≠ "index"
    ∧ ∀ args kw, reg_callback r args kw = Return (PStr "a").
Proof.
  exact (X19_registered_name_is_new index_a (Some ["POST"])
           (conj eq_refl eq_refl)).
Defined.

(** X23.  A decoration whose options bind calls the router with the path
    given and a list of verbs that holds the verb of the method, whether
    [methods] names it or not, and besides it the verbs of [methods] and
    nothing else; the other options go to the router as they are. *)
Theorem X23_verb_always_registered
    (d : decoration) (methods : option (list string)) :
  binds (dec_options d) methods →
  ∃ r : registration,
    decorate d = RouterCalled r
    ∧ reg_route r = dec_route d
    ∧ verb_name (dec_verb d) ∈ reg_methods r
    ∧ (∀ m : string,
         m ∈ reg_methods r
         ↔ m = verb_name (dec_verb d) ∨ m ∈ default [] methods)
    ∧ reg_others r = other_options (dec_options d).
Proof.
  intros Hb. eexists. split; [by apply decorate_binds|]. simpl.
  split; [done|]. split; [apply resolve_methods_elem; by left|].
  split; [|done]. intros m. apply resolve_methods_elem.
Qed.

Lemma X23_verb_always_registered_witness :
  ∃ r : registration,
    decorate index_a = RouterCalled r
    ∧ reg_route r = "/a"
    ∧ "GET" ∈ reg_methods r
    ∧ (∀ m : string, m ∈ reg_methods r ↔ m = "GET" ∨ m ∈ ["POST"])
    ∧ reg_others r = [("strict_slashes", PBool false)].
Proof.
  exact (X23_verb_always_registered index_a (Some ["POST"])
           (conj eq_refl eq_refl)).
Defined.

(** X24.  A decoration with a keyword option named [self], [route] or
    [method] raises a [TypeError], and so does one whose [methods] is
    [None], a [bool], an [int] or a [float]: the router is not called. *)
Theorem X24_refused_options_register_nothing (d : decoration) :
  (∀ k : string,
     k ∈ ["self"; "route"; "method"] →
     is_Some (dict_get k (dec_options d)) →
     ∃ e : exn, decorate d = Refused e ∧ exc_class e = "TypeError")
  ∧ (∀ v : pyval,
       bound_twice ["self"; "route"; "method"] (dec_options d) = None →
       dict_get "methods" (dec_options d) = Some v →
       type_of v ∈ [TNoneType; TBool; TInt; TFloat] →
       decorate d
       = Refused
           (mk_exn "TypeError"
              ("'" ++ type_name (type_of v) ++ "' object is not iterable"))).
Proof.
  split.
  - intros k Hk Hsome.
    destruct (bound_twice_Some _ _ k Hk Hsome) as (param & Hparam & _).
    unfold decorate.
    destruct (dec_verb d); simpl; unfold options, get, post, put, delete;
      (destruct (bound_twice ["self"; "route"] (dec_options d));
       [by eexists|]);
      unfold __wrap_route; rewrite Hparam; by eexists.
  - intros v Hb Hm Hv. pose proof (bound_twice_route _ Hb) as Hb2.
    assert (read_methods (dec_options d)
            = MethodsNotIterable (type_name (type_of v))) as Hread.
    { unfold read_methods. rewrite Hm. rewrite !elem_of_cons in Hv.
      destruct v; try done; destruct Hv as [?|[?|[?|[?|?%elem_of_nil]]]];
        done. }
    unfold decorate.
    destruct (dec_verb d); simpl; unfold options, get, post, put, delete;
      rewrite Hb2; unfold __wrap_route; by rewrite Hb, Hread.
Qed.

Lemma X24_refused_options_register_nothing_witness :
  (∃ e : exn,
     decorate
       (mk_decoration POST "/a" [("method", PStr "GET")] "view"
          (λ _ _, Return PNone) 140000016)
     = Refused e
     ∧ exc_class e = "TypeError")
  ∧ decorate
      (mk_decoration POST "/a" [("methods", PNone)] "view"
         (λ _ _, Return PNone) 140000016)
    = Refused (mk_exn "TypeError" "'NoneType' object is not iterable").
Proof.
  split.
  - apply (proj1 (X24_refused_options_register_nothing
                    (mk_decoration POST "/a" [("method", PStr "GET")] "view"
                       (λ _ _, Return PNone) 140000016)) "method").
    + vm_compute. right. right. left.
    + by eexists.
  - apply (proj2 (X24_refused_options_register_nothing
                    (mk_decoration POST "/a" [("methods", PNone)] "view"
                       (λ _ _, Return PNone) 140000016)) PNone eq_refl eq_refl).
    left.
Defined.

(** X25.  Two decorations whose options bind, with callbacks that are two
    objects (so of two identities): the router is called for both; they are
    registered under the same name only if one function name is the other
    one followed by digits; so two functions of the same name are
    registered under two names. *)
Theorem X25_same_name_two_names
    (a b : decoration) (ma mb : option (list string)) :
  binds (dec_options a) ma →
  binds (dec_options b) mb →
  dec_callback_id a ≠ dec_callback_id b →
  ∃ ra rb : registration,
    decorate a = RouterCalled ra
    ∧ decorate b = RouterCalled rb
    ∧ (reg_name ra = reg_name rb →
       ∃ digits : string,
         digits ≠ "" ∧ str_digits digits = true
         ∧ (dec_func_name a = dec_func_name b ++ digits
            ∨ dec_func_name b = dec_func_name a ++ digits))
    ∧ (dec_func_name a = dec_func_name b → reg_name ra ≠ reg_name rb).
Proof.
  intros Ha Hb Hids. eexists _, _.
  split; [by apply decorate_binds|].
  split; [by apply decorate_binds|]. simpl.
  assert (generated_name a = generated_name b →
          ∃ digits : string,
            digits ≠ "" ∧ str_digits digits = true
            ∧ (dec_func_name a = dec_func_name b ++ digits
               ∨ dec_func_name b = dec_func_name a ++ digits)) as Hclash.
  { intros Heq. by eapply generated_name_clash. }
  split; [done|]. intros Hname Heq.
  destruct (Hclash Heq) as (digits & Hne & _ & [Hd|Hd]); apply Hne.
  + rewrite <-Hname in Hd. by apply str_app_not_longer in Hd.
  + rewrite Hname in Hd. by apply str_app_not_longer in Hd.
Qed.

Lemma X25_same_name_two_names_witness :
  ∃ ra rb : registration,
    decorate index_a = RouterCalled ra
    ∧ decorate index_b = RouterCalled rb
    ∧ (reg_name ra = reg_name rb →
       ∃ digits : string,
         digits ≠ "" ∧ str_digits digits = true
         ∧ ("index" = "index" ++ digits ∨ "index" = "index" ++ digits))
    ∧ ("index" = "index" → reg_name ra ≠ reg_name rb).
Proof.
  exact (X25_same_name_two_names index_a index_b
           (Some ["POST"]) None (conj eq_refl eq_refl) (conj eq_refl eq_refl)
           (λ H : 140000016%N = 140000160%N,
              eq_ind 140000016%N
                (λ n, match n with
                      | 140000016%N => True
                      | _ => False
                      end) I _ H)).
Defined.

End route_extras.

Lemma iso_strings_datetime_free (o : pyval) :
  datetime_free o = true → iso_strings o = o.
Proof.
  induction o as [| | | | |l IH|l IH|d IH| | |] using pyval_nested_ind;
    try done.
  - simpl. intros Hl. f_equal.
    induction IH as [|x l Hx _ IHl]; [done|].
    simpl in Hl. apply andb_true_iff in Hl as [Hx' Hl].
    rewrite fmap_cons. by rewrite Hx, IHl.
  - simpl. intros Hl. f_equal.
    induction IH as [|x l Hx _ IHl]; [done|].
    simpl in Hl. apply andb_true_iff in Hl as [Hx' Hl].
    rewrite fmap_cons. by rewrite Hx, IHl.
  - simpl. intros Hd. f_equal.
    induction IH as [|[k v] d Hv _ IHd]; [done|].
    simpl in Hd, Hv. apply andb_true_iff in Hd as [Hv' Hd].
    rewrite fmap_cons. by rewrite Hv, IHd.
Qed.

(** X20.  On a payload with no [datetime] among its values the encoder of
    the module gives what the standard encoder gives, text or error. *)
Theorem X20_encoder_conservative (o : pyval) :
  datetime_free o = true →
  json.dumps __JSONEncoder.default o = json.dumps_standard o.
Proof.
  intros Ho. by rewrite dumps_iso_strings, iso_strings_datetime_free.
Qed.

Lemma X20_encoder_conservative_witness :
  json.dumps __JSONEncoder.default
    (PDict [(KStr "ids", PList [PInt 1; PObject "set"])])
  = json.dumps_standard (PDict [(KStr "ids", PList [PInt 1; PObject "set"])]).
Proof.
  exact (X20_encoder_conservative
           (PDict [(KStr "ids", PList [PInt 1; PObject "set"])]) eq_refl).
Defined.

(** ** Validation without surprises *)

Section validator_total.
Import json_request_required validator_facts validator_more validator.

Implicit Types (obj : list (pykey * pyval)) (errors : list (string * string)).

Lemma verify_step_well_formed obj errors spec :
  well_formed spec = true → ∃ errors', verify_step obj errors spec = Return errors'.
Proof.
  unfold well_formed, verify_step, check_specifier.
  destruct (parse_specifier spec) as [[tn k]|e]; [|done].
  cbv beta iota delta [mbind outcome_bind].
  destruct (dict_get (KStr k) obj) as [v|]; [|by eexists].
  destruct tn as [t|]; [|by eexists].
  intros [ty Hty]%bool_decide_eq_true.
  destruct (decide (t = "any")); [by eexists|].
  rewrite Hty. destruct (type_is v ty); by eexists.
Qed.

(** X21.  When every specifier has at most one colon and a type name of the
    table, the validation returns its errors, whatever the body: it raises
    neither the [ValueError] nor the [AssertionError]. *)
Theorem X21_well_formed_never_raises obj (required : list string) :
  forallb well_formed required = true →
  ∃ errors, verify_json obj required = Return errors.
Proof.
  unfold verify_json. generalize (@nil (string * string)).
  induction required as [|spec required IH]; intros errors; simpl.
  - by eexists.
  - intros [Hs Hr]%andb_true_iff.
    destruct (verify_step_well_formed obj errors spec Hs) as [errors' ->].
    simpl. by apply IH.
Qed.

Lemma X21_well_formed_never_raises_witness :
  ∃ errors,
    verify_json [(KStr "age", PStr "12")] ["name"; "Int:age"; "any:x"]
    = Return errors.
Proof.
  exact (X21_well_formed_never_raises [(KStr "age", PStr "12")]
           ["name"; "Int:age"; "any:x"] eq_refl).
Defined.

(** X22.  A validator built on no specifier, or on an empty list of
    specifiers, is the JSON-body extractor as long as no keyword argument
    is named [body]: it checks nothing, whatever the body is. *)
Theorem X22_no_requirement_is_json_request
    (verify_other : list string → pyval → outcome (list (string * string)))
    (required : list specifier_arg) (func : callable) (req : request.t)
    (args : list pyval) (kw : kwargs) :
  effective required = [] →
  dict_get "body" kw = None →
  __call__ verify_other required func req args kw
  = json_request func req args kw.
Proof.
  intros Heff Hkw. unfold __call__, json_request.
  destruct (match request.json req with
            | request.JsonProperty read => _
            | request.JsonMethod call => call
            end) as [body|e]; [|done].
  cbv beta iota delta [mbind outcome_bind].
  assert (verify_body verify_other required body = Return []) as Hb.
  { unfold verify_body. rewrite Heff.
    destruct body; try done.
    destruct required as [|[s|b l] rest]; [done|done|].
    simpl in Heff. by rewrite Heff. }
  destruct body; try done; rewrite Hkw; unfold __callback; by rewrite Hb.
Qed.

Lemma X22_no_requirement_is_json_request_witness :
  __call__ (λ _ _, Raise (mk_exn "TypeError" "")) [ArgSeq true []]
    (λ args _, Return (PList args))
    (request.mk (request.JsonMethod (Return (PList [PInt 1])))
       PNone PNone PNone PNone) [] [("id", PInt 7)]
  = json_request (λ args _, Return (PList args))
      (request.mk (request.JsonMethod (Return (PList [PInt 1])))
         PNone PNone PNone PNone) [] [("id", PInt 7)].
Proof.
  exact (X22_no_requirement_is_json_request _ [ArgSeq true []] _ _ []
           [("id", PInt 7)] eq_refl eq_refl).
Defined.

(** X26.  Called with a keyword argument named [body], as the router does
    for a path with a variable of that name, the decorated endpoint raises
    the [TypeError] of a parameter bound twice, for any body that is not
    [None], whatever is required; nothing is checked and the endpoint is
    not called, where the JSON-body extractor alone calls it. *)
Theorem X26_keyword_named_body_is_refused
    (verify_other : list string → pyval → outcome (list (string * string)))
    (required : list specifier_arg) (func : callable) (req : request.t)
    (d : list (pykey * pyval)) (args : list pyval) (kw : kwargs) :
  request.json req = request.JsonProperty (Return (PDict d))
  ∨ request.json req = request.JsonMethod (Return (PDict d)) →
  is_Some (dict_get "body" kw) →
  __call__ verify_other required func req args kw
  = TypeError
      ("json_request_required.__call__.<locals>.__callback() "
       ++ "got multiple values for argument 'body'")
  ∧ json_request func req args kw = func (PDict d :: args) kw.
Proof.
  intros Hreq [v Hv]. split; [|by apply json_request_mapping].
  unfold __call__. rewrite (json_request_mapping _ _ d) by done.
  by rewrite Hv.
Qed.

Lemma X26_keyword_named_body_is_refused_witness :
  __call__ (λ _ _, Return []) [] (λ args _, Return (PList args))
    ann_request [] [("body", PStr "7")]
  = TypeError
      ("json_request_required.__call__.<locals>.__callback() "
       ++ "got multiple values for argument 'body'")
  ∧ json_request (λ args _, Return (PList args)) ann_request []
      [("body", PStr "7")]
    = Return (PList [PDict ann_body]).
Proof.
  exact (X26_keyword_named_body_is_refused (λ _ _, Return []) []
           (λ args _, Return (PList args)) ann_request ann_body []
           [("body", PStr "7")] (or_introl eq_refl)
           (ex_intro _ (PStr "7") eq_refl)).
Defined.

End validator_total.
